(** * BaselineStatus: status resolution and label derivation

    A shallow embedding of [src/BaselineStatus.tsx], the single component of
    the package, and the properties its specification states about it.

    Strings are [String.string], read as the UTF-8 bytes of the JavaScript
    strings; no operation of the component depends on the length of a
    non-ASCII character.  A value that may be [undefined] is an [option]. *)

From Stdlib Require Import String Ascii List ZArith Bool Lia DecimalString.
Import ListNotations.

Open Scope string_scope.
Open Scope Z_scope.

(** ** Module constants *)

Definition API_ENDPOINT : string := "https://api.webstatus.dev/v1/features/".

Definition FETCH_CACHE_TTL_SECONDS : Z := 60 * 60 * 24 * 7.

(** [type BaselineStatusType = "limited" | "newly" | "widely" | "no_data"] *)
Inductive BaselineStatusType : Type :=
| limited
| newly
| widely
| no_data.

Definition BaselineStatusType_eqb (a b : BaselineStatusType) : bool :=
  match a, b with
  | limited, limited | newly, newly | widely, widely | no_data, no_data => true
  | _, _ => false
  end.

(** The string a tier is in the payload. *)
Definition tierString (b : BaselineStatusType) : string :=
  match b with
  | limited => "limited"
  | newly => "newly"
  | widely => "widely"
  | no_data => "no_data"
  end.

Record BaselineDef : Type := {
  title : string;
  defaultDescription : string
}.

(** U+2019, the apostrophe of two of the texts, in UTF-8. *)
Definition rsquo : string :=
  String (ascii_of_nat 226) (String (ascii_of_nat 128) (String (ascii_of_nat 153) "")).

(** The line feed inside the two multi-line template literals. *)
Definition LF : string := String (ascii_of_nat 10) "".

Definition BASELINE_DEFS (b : BaselineStatusType) : BaselineDef :=
  match b with
  | limited =>
      {| title := "Limited availability";
         defaultDescription :=
           "This feature is not Baseline because it does not work in some of the most widely-used browsers." |}
  | newly =>
      {| title := "";
         defaultDescription :=
           "This feature works across the latest devices and browser versions. This feature might not work in older devices or browsers." |}
  | widely =>
      {| title := "Widely available";
         defaultDescription :=
           "This feature is well established and works across many devices and browser versions." |}
  | no_data =>
      {| title := "Unknown availability";
         defaultDescription :=
           "We currently don" ++ rsquo ++ "t have browser support information about this feature." |}
  end.

(** ** The payload *)

Record Baseline : Type := {
  low_date : option string;
  status : BaselineStatusType
}.

Record DeveloperSignals : Type := {
  link : string;
  upvotes : Z
}.

(** [{ status: string }], one raw implementation record. *)
Record Implementation : Type := {
  impl_status : string
}.

Record BrowserImplementations : Type := {
  chrome : Implementation;
  chrome_android : Implementation;
  edge : Implementation;
  firefox : Implementation;
  firefox_android : Implementation;
  safari : Implementation;
  safari_ios : Implementation
}.

Record BaselineStatusData : Type := {
  baseline : Baseline;
  developer_signals : option DeveloperSignals;
  browser_implementations : option BrowserImplementations;
  name : string
}.

Record BaselineStatusError : Type := {
  code : Z;
  message : string
}.

(** ** Exceptions

    The component has no [try]: what a platform call throws, or a promise it
    awaits rejects with, leaves [BaselineStatus] as a rejection. *)

Inductive exn : Type :=
| FetchRejected      (* [fetch] rejects: the request did not complete *)
| JsonSyntaxError    (* [response.json()] rejects: the body is not JSON *)
| TypeError          (* the operator [in] on a value that is not an object *)
| RangeError.        (* [format] of an invalid [Date] *)

Inductive result (A : Type) : Type :=
| Ok (a : A)
| Throw (e : exn).

Arguments Ok {A} a.
Arguments Throw {A} e.

Definition bind {A B : Type} (m : result A) (k : A -> result B) : result B :=
  match m with
  | Ok a => k a
  | Throw e => Throw e
  end.

Notation "x <- m ;; k" := (bind m (fun x => k))
  (at level 61, m at next level, right associativity).

Definition isOk {A : Type} (m : result A) : bool :=
  match m with
  | Ok _ => true
  | Throw _ => false
  end.

(** ** JSON

    A value [response.json()] can resolve to; a number is kept as its
    text. *)

#[warning="-register-all"]
Inductive json : Type :=
| json_null
| json_boolean (b : bool)
| json_number (literal : string)
| json_string (s : string)
| json_array (items : list json)
| json_object (members : list (string * json)).

(** Arrays are objects; [null] and the primitives are not. *)
Definition isObject (value : json) : bool :=
  match value with
  | json_object _ | json_array _ => true
  | _ => false
  end.

(** Whether an object has the member [key]; an array has none under a
    name. *)
Definition hasMember (key : string) (value : json) : bool :=
  match value with
  | json_object members => existsb (fun member => (fst member =? key)%string) members
  | _ => false
  end.

(** [key in value]: a [TypeError] on a value that is not an object. *)
Definition inOperator (key : string) (value : json) : result bool :=
  if isObject value then Ok (hasMember key value) else Throw TypeError.

(** ** The platform

    What the awaited [fetch] and [response.json()] of one invocation come to:
    the request is rejected, or it completes with some [response.ok] and a
    body that is not JSON, or JSON.  The source casts the JSON to
    [BaselineStatusData | BaselineStatusError] without a check.  [Json] is a
    body of one of these two shapes; [Untyped] is any other JSON without a
    member [baseline]: [null], a primitive, an array, an object of other
    members.  A body that has the member [baseline] is read as a payload,
    under the type the cast gives it, and is a [Json] body. *)

Inductive Body : Type :=
| NotJson
| Json (responseJson : BaselineStatusData + BaselineStatusError)
| Untyped (value : json) (baseless : hasMember "baseline" value = false).

Inductive FetchOutcome : Type :=
| Rejected
| Response (ok : bool) (body : Body).

(** [fetch url revalidate] is the request for [url] under the caching policy
    [{ cache: "force-cache", next: { revalidate } }].

    [formatMonthYear locale s] stands for
    [new Intl.DateTimeFormat(locale, { year: "numeric", month: "long" }).format(new Date(s))];
    it is [None] when [new Date(s)] is an invalid date, for which [format]
    throws a [RangeError]. *)

Record Platform : Type := {
  fetch : string -> Z -> FetchOutcome;
  formatMonthYear : string -> string -> option string
}.

(** JavaScript truthiness of a string: every string but the empty one. *)
Definition truthy (s : string) : bool :=
  match s with
  | EmptyString => false
  | String _ _ => true
  end.

Section Formatting.

Variable P : Platform.

(** [getBaselineDate]: the formatter is reached only for a truthy
    [low_date]. *)
Definition getBaselineDate (feature : BaselineStatusData) : result string :=
  match low_date (baseline feature) with
  | Some d =>
      if truthy d then
        match formatMonthYear P "en-US" d with
        | Some s => Ok s
        | None => Throw RangeError
        end
      else Ok ""
  | None => Ok ""
  end.

End Formatting.

(** [getDescriptionDate]; the two template literals run over three lines of
    the source, so each holds two line feeds followed by the four spaces of
    the indentation. *)
Definition getDescriptionDate (baseline : BaselineStatusType) (date : string) : string :=
  if BaselineStatusType_eqb baseline newly && truthy date then
    "Since " ++ date ++ " this feature works across the latest" ++ LF ++
    "    devices and browser versions. This feature might not work in older" ++ LF ++
    "    devices or browsers."
  else if BaselineStatusType_eqb baseline widely && truthy date then
    "This feature is well established and works across many" ++ LF ++
    "    devices and browser versions. It" ++ rsquo ++ "s been available across browsers" ++ LF ++
    "    since " ++ date
  else defaultDescription (BASELINE_DEFS baseline).

(** ** Markup

    What the component returns.  [BaselineIcon], [BrowserIcons] and
    [SupportIcons] are imported from modules of their own and are opaque
    leaves here; [styles] is the CSS module, a map from class keys to
    generated class names. *)

Inductive Browser : Type := Chrome | Edge | Firefox | Safari.

(** The keys of [supportStyles]. *)
Inductive SupportKey : Type :=
| available
| unavailable
| support_newly
| support_widely
| support_no_data.

Inductive AttrValue : Type :=
| AString (s : string)
| AUndefined.

#[warning="-register-all"]
Inductive jsx : Type :=
| JUndefined
| JBoolean (b : bool)
| JText (s : string)
| JNumber (n : Z)
| JFragment (children : list jsx)
| JElement (tag : string) (attrs : list (string * AttrValue)) (children : list jsx)
| JBaselineIcon (support : BaselineStatusType)
| JBrowserIcon (b : Browser)
| JSupportIcon (icon : SupportKey).

(** JavaScript truthiness of what an expression in markup evaluates to: an
    element or a fragment is an object, and every object is truthy. *)
Definition jsx_truthy (e : jsx) : bool :=
  match e with
  | JUndefined => false
  | JBoolean b => b
  | JText s => truthy s
  | JNumber n => negb (n =? 0)
  | JFragment _ | JElement _ _ _ | JBaselineIcon _ | JBrowserIcon _ | JSupportIcon _ => true
  end.

Definition truthyU (s : option string) : bool :=
  match s with
  | Some s => truthy s
  | None => false
  end.

Definition orDefault (d : string) (s : option string) : string :=
  match s with
  | Some s => s
  | None => d
  end.

(** [getAriaLabel]; the four browser parameters default to ["no"] and are
    reassigned when the title is the one of [no_data]. *)
Definition getAriaLabel (title : string) (year : option string) (badge : jsx)
    (chrome edge firefox safari : option string) : string :=
  let chrome := orDefault "no" chrome in
  let edge := orDefault "no" edge in
  let firefox := orDefault "no" firefox in
  let safari := orDefault "no" safari in
  let unknown := (title =? "Unknown availability")%string in
  let chrome := if unknown then "unknown" else chrome in
  let edge := if unknown then "unknown" else edge in
  let firefox := if unknown then "unknown" else firefox in
  let safari := if unknown then "unknown" else safari in
  "Baseline: " ++ title
    ++ (if truthyU year then " " ++ orDefault "" year else "")
    ++ (if jsx_truthy badge then " (newly available)" else "")
    ++ ". Supported in Chrome: " ++ (if (chrome =? "available")%string then "yes" else chrome)
    ++ ". Supported in Edge: " ++ (if (edge =? "available")%string then "yes" else edge)
    ++ ". Supported in Firefox: " ++ (if (firefox =? "available")%string then "yes" else firefox)
    ++ ". Supported in Safari: " ++ (if (safari =? "available")%string then "yes" else safari)
    ++ ".".

(** [impl?.status === "available"] *)
Definition isAvailable (impl : option Implementation) : bool :=
  match impl with
  | Some i => (impl_status i =? "available")%string
  | None => false
  end.

Definition checkAvailability (implementations : list (option Implementation)) : bool :=
  forallb isAvailable implementations.

Definition getStatus (implementations : list (option Implementation)) : string :=
  if checkAvailability implementations then "available" else "no".

(** The local [support] of [renderSupportIcon]. *)
Definition supportOf (baseline : BaselineStatusType)
    (implementations : list (option Implementation)) : SupportKey :=
  let allAvailable := checkAvailability implementations in
  match baseline with
  | limited => if allAvailable then available else unavailable
  | newly => support_newly
  | widely => support_widely
  | no_data => support_no_data
  end.

(** The local [icon] of [renderSupportIcon]. *)
Definition iconOf (support : SupportKey) : SupportKey :=
  match support with
  | support_newly | support_widely => available
  | other => other
  end.

Definition classAttr (c : option string) : AttrValue :=
  match c with
  | Some s => AString s
  | None => AUndefined
  end.

Section Markup.

Variable styles : string -> option string.

Definition supportStyles (support : SupportKey) : option string :=
  match support with
  | available => styles "supportAvailable"
  | support_newly => styles "supportNewly"
  | support_no_data => styles "supportNoData"
  | unavailable => styles "supportUnavailable"
  | support_widely => styles "supportWidely"
  end.

(** [renderSupportIcon]; the [$] before the brace is text of the span. *)
Definition renderSupportIcon (baseline : BaselineStatusType)
    (implementations : list (option Implementation)) : jsx :=
  let support := supportOf baseline implementations in
  let icon := iconOf support in
  JElement "span" [("className", classAttr (supportStyles support))]
    [JText "$"; JSupportIcon icon].

End Markup.

(** ** The component *)

Record BaselineStatusProps : Type := {
  featureId : string;
  openInNewTab : option bool;
  className : option string;
  props : list (string * AttrValue)
}.

Definition missingFeature (featureId : string) : BaselineStatusData :=
  {| baseline := {| low_date := None; status := no_data |};
     developer_signals := None;
     browser_implementations := None;
     name := if truthy featureId then featureId else "Unknown feature" |}.

(** ["baseline" in responseJson], on the two shapes of the cast, which are
    both objects; on other JSON the test is [inOperator]. *)
Definition hasBaseline (responseJson : BaselineStatusData + BaselineStatusError) : bool :=
  match responseJson with
  | inl _ => true
  | inr _ => false
  end.

(** [response.ok && "baseline" in responseJson ? responseJson : missingFeature] *)
Definition selectFeature (featureId : string) (ok : bool)
    (responseJson : BaselineStatusData + BaselineStatusError) : BaselineStatusData :=
  match responseJson with
  | inl data => if ok && hasBaseline responseJson then data else missingFeature featureId
  | inr _ => missingFeature featureId
  end.

(** The constants the body of [BaselineStatus] computes before it builds the
    markup. *)
Record ResolvedView : Type := {
  rv_feature : BaselineStatusData;
  rv_baseline : BaselineStatusType;
  rv_preTitle : jsx;
  rv_title : string;
  rv_badge : jsx;
  rv_baselineDate : string;
  rv_description : string;
  rv_year : option string;
  rv_chrome : option Implementation;
  rv_chromeAndroid : option Implementation;
  rv_edge : option Implementation;
  rv_firefox : option Implementation;
  rv_firefoxAndroid : option Implementation;
  rv_safari : option Implementation;
  rv_safariIos : option Implementation;
  rv_upvoteUrl : option string;
  rv_upvotes : option Z
}.

(** [s.split(" ")], for a separator of one character. *)
Fixpoint split (sep : ascii) (s : string) : list string :=
  match s with
  | EmptyString => [EmptyString]
  | String c rest =>
      if Ascii.eqb c sep then EmptyString :: split sep rest
      else match split sep rest with
           | word :: words => String c word :: words
           | [] => [String c EmptyString]
           end
  end.

Definition space : ascii := ascii_of_nat 32.

Section Component.

Variable P : Platform.
Variable styles : string -> option string.

Definition resolve (feature : BaselineStatusData) : result ResolvedView :=
  let baseline := status (baseline feature) in
  let preTitle :=
    if BaselineStatusType_eqb baseline limited || BaselineStatusType_eqb baseline no_data
    then JFragment []
    else JElement "strong" [] [JText "Baseline"] in
  let title := title (BASELINE_DEFS baseline) in
  let badge :=
    if BaselineStatusType_eqb baseline newly
    then JElement "span" [("className", classAttr (styles "baselineBadge"))]
           [JText "newly available"]
    else JFragment [] in
  baselineDate <- getBaselineDate P feature ;;
  let description := getDescriptionDate baseline baselineDate in
  let year :=
    if BaselineStatusType_eqb baseline newly && truthy baselineDate
    then nth_error (split space baselineDate) 1
    else Some "" in
  let impl (key : BrowserImplementations -> Implementation) :=
    option_map key (browser_implementations feature) in
  Ok {| rv_feature := feature;
        rv_baseline := baseline;
        rv_preTitle := preTitle;
        rv_title := title;
        rv_badge := badge;
        rv_baselineDate := baselineDate;
        rv_description := description;
        rv_year := year;
        rv_chrome := impl chrome;
        rv_chromeAndroid := impl chrome_android;
        rv_edge := impl edge;
        rv_firefox := impl firefox;
        rv_firefoxAndroid := impl firefox_android;
        rv_safari := impl safari;
        rv_safariIos := impl safari_ios;
        rv_upvoteUrl := option_map link (developer_signals feature);
        rv_upvotes := option_map upvotes (developer_signals feature) |}.

(** The [aria-label] of the summary. *)
Definition ariaLabel (v : ResolvedView) : string :=
  getAriaLabel (rv_title v) (rv_year v) (rv_badge v)
    (Some (getStatus [rv_chrome v; rv_chromeAndroid v]))
    (Some (getStatus [rv_edge v]))
    (Some (getStatus [rv_firefox v; rv_firefoxAndroid v]))
    (Some (getStatus [rv_safari v; rv_safariIos v])).

Definition linkTarget (args : BaselineStatusProps) : list (string * AttrValue) :=
  let openInNewTab := match openInNewTab args with Some b => b | None => false end in
  [("target", AString (if openInNewTab then "_blank" else "_top"));
   ("rel", if openInNewTab then AString "noopener noreferrer" else AUndefined)].

(** [{upvoteUrl && typeof upvotes === "number" && (<a ...>...</a>)}] *)
Definition signalsBadge (args : BaselineStatusProps) (v : ResolvedView) : jsx :=
  match rv_upvoteUrl v with
  | None => JUndefined
  | Some upvoteUrl =>
      if truthy upvoteUrl then
        match rv_upvotes v with
        | None => JBoolean false
        | Some upvotes =>
            JElement "a"
              ([("className", classAttr (styles "signalsBadge"));
                ("href", AString upvoteUrl)]
               ++ linkTarget args
               ++ [("title",
                    AString (NilZero.string_of_int (Z.to_int upvotes)
                             ++ " developer upvote" ++ (if upvotes =? 1 then "" else "s")
                             ++ ". Need this feature across browsers? Click this and upvote it on GitHub."))])
              [JText "👍 "; JNumber (if upvotes =? 0 then 0 else upvotes)]
        end
      else JText upvoteUrl
  end.

Definition openIcon : jsx :=
  JElement "span" [("className", classAttr (styles "openIcon")); ("aria-hidden", AString "true")]
    [JElement "svg"
       [("xmlns", AString "http://www.w3.org/2000/svg"); ("width", AString "11");
        ("height", AString "7"); ("viewBox", AString "0 0 11 7"); ("fill", AString "none")]
       [JElement "path"
          [("d", AString "M5.5 6.45356L0.25 1.20356L1.19063 0.262939L5.5 4.59419L9.80937 0.284814L10.75 1.22544L5.5 6.45356Z");
           ("fill", AString "currentColor")]
          []]].

Definition browserSpan (b : Browser) (baseline : BaselineStatusType)
    (implementations : list (option Implementation)) : jsx :=
  JElement "span" []
    [JBrowserIcon b; JText " "; renderSupportIcon styles baseline implementations].

(** The second paragraph of the details: the link to the feature's page in
    the web-features repository, or an empty fragment. *)
Definition learnMore (args : BaselineStatusProps) (baseline : BaselineStatusType) : jsx :=
  if BaselineStatusType_eqb baseline no_data then JFragment []
  else
    JElement "a"
      (("href",
        AString ("https://github.com/web-platform-dx/web-features/blob/main/features/"
                 ++ featureId args ++ ".yml"))
       :: linkTarget args)
      [JText "Learn more"].

Definition render (args : BaselineStatusProps) (v : ResolvedView) : jsx :=
  let baseline := rv_baseline v in
  JElement "div"
    (("className",
      AString (orDefault "" (styles "host") ++ " " ++ orDefault "" (className args)))
     :: props args)
    [JElement "div" [("className", classAttr (styles "name"))]
       [JText (name (rv_feature v)); JText " "; signalsBadge args v];
     JElement "details" []
       [JElement "summary" [("aria-label", AString (ariaLabel v))]
          [JBaselineIcon baseline;
           JElement "div"
             [("className", classAttr (styles "baselineStatusTitle"));
              ("aria-hidden", AString "true")]
             [JElement "div" []
                [rv_preTitle v; JText " "; JText (rv_title v); JText " ";
                 match rv_year v with Some y => JText y | None => JUndefined end;
                 JText " "; rv_badge v];
              JElement "div" [("className", classAttr (styles "baselineStatusBrowsers"))]
                [browserSpan Chrome baseline [rv_chrome v; rv_chromeAndroid v];
                 browserSpan Edge baseline [rv_edge v];
                 browserSpan Firefox baseline [rv_firefox v; rv_firefoxAndroid v];
                 browserSpan Safari baseline [rv_safari v; rv_safariIos v]]];
           openIcon];
        JElement "p" [] [JText (rv_description v)];
        JElement "p" [] [learnMore args baseline]]].

(** The view of one invocation: the awaited fetch, the choice between the
    response and [missingFeature], and the constants. *)
Definition resolveFeature (featureId : string) : result ResolvedView :=
  let url := API_ENDPOINT ++ featureId in
  match fetch P url FETCH_CACHE_TTL_SECONDS with
  | Rejected => Throw FetchRejected
  | Response ok NotJson => Throw JsonSyntaxError
  | Response ok (Json responseJson) => resolve (selectFeature featureId ok responseJson)
  | Response ok (Untyped value _) =>
      (* [response.ok && "baseline" in responseJson]: the test of the member
         is reached for a success alone, and is false when it returns *)
      present <- (if ok then inOperator "baseline" value else Ok false) ;;
      resolve (missingFeature featureId)
  end.

Definition BaselineStatus (args : BaselineStatusProps) : result jsx :=
  v <- resolveFeature (featureId args) ;;
  Ok (render args v).

End Component.

(** ** A reference platform

    The behaviour ECMAScript prescribes for the two platform calls on the
    strings the catalogue holds: a date-only string [YYYY-MM-DD] of a calendar
    day with a four-digit year from 1000 on.  [new Date] reads it as midnight
    UTC, and [format] shows that instant in the time zone of the runtime, so
    west of Greenwich the first day of a month falls in the month before.
    Every other string is an invalid date here.  That is what the platform
    does for the empty string and for a word that names no date; the
    platform reads more than the model does (a date with a time, a year
    before 1000, in some engines a day past the end of its month), and on
    those strings the model is not the platform.  The theorems below use
    the reference platform on calendar days in the format, on the empty
    string and on a word. *)

Module Reference.

Record Runtime : Type := {
  defaultLocale : string;
  timeZoneOffset : Z          (* minutes east of UTC, within a day *)
}.

Definition digit (c : ascii) : option Z :=
  let n := Z.of_nat (nat_of_ascii c) in
  if (48 <=? n) && (n <=? 57) then Some (n - 48) else None.

Fixpoint digits (acc : Z) (cs : list ascii) : option Z :=
  match cs with
  | [] => Some acc
  | c :: rest =>
      match digit c with
      | Some d => digits (10 * acc + d) rest
      | None => None
      end
  end.

Definition isLeap (y : Z) : bool :=
  ((y mod 4 =? 0) && negb (y mod 100 =? 0)) || (y mod 400 =? 0).

Definition daysInMonth (y m : Z) : Z :=
  if m =? 2 then (if isLeap y then 29 else 28)
  else if (m =? 4) || (m =? 6) || (m =? 9) || (m =? 11) then 30
  else 31.

Definition hyphen : ascii := ascii_of_nat 45.

Definition parseDateOnly (s : string) : option (Z * Z * Z) :=
  match list_ascii_of_string s with
  | [y1; y2; y3; y4; h1; m1; m2; h2; d1; d2] =>
      if Ascii.eqb h1 hyphen && Ascii.eqb h2 hyphen then
        match digits 0 [y1; y2; y3; y4], digits 0 [m1; m2], digits 0 [d1; d2] with
        | Some y, Some m, Some d =>
            if (1000 <=? y) && (1 <=? m) && (m <=? 12) && (1 <=? d) && (d <=? daysInMonth y m)
            then Some (y, m, d)
            else None
        | _, _, _ => None
        end
      else None
  | _ => None
  end.

(** Year and month, in the zone of the runtime, of midnight UTC of a day. *)
Definition localMonth (offset : Z) (date : Z * Z * Z) : Z * Z :=
  let '(y, m, d) := date in
  if (offset <? 0) && (d =? 1)
  then (if m =? 1 then (y - 1, 12) else (y, m - 1))
  else (y, m).

Definition monthLong_en (m : Z) : string :=
  match m with
  | 1 => "January" | 2 => "February" | 3 => "March" | 4 => "April"
  | 5 => "May" | 6 => "June" | 7 => "July" | 8 => "August"
  | 9 => "September" | 10 => "October" | 11 => "November" | _ => "December"
  end.

Definition monthLong_es (m : Z) : string :=
  match m with
  | 1 => "enero" | 2 => "febrero" | 3 => "marzo" | 4 => "abril"
  | 5 => "mayo" | 6 => "junio" | 7 => "julio" | 8 => "agosto"
  | 9 => "septiembre" | 10 => "octubre" | 11 => "noviembre" | _ => "diciembre"
  end.

Definition supported (locale : string) : bool :=
  (locale =? "en-US")%string || (locale =? "es-ES")%string.

(** The locale of a formatter: the requested one when the runtime has it,
    else the default of the runtime. *)
Definition resolveLocale (rt : Runtime) (requested : string) : string :=
  if supported requested then requested
  else if supported (defaultLocale rt) then defaultLocale rt
  else "en-US".

Definition year_numeric (y : Z) : string := NilZero.string_of_int (Z.to_int y).

Definition intlMonthYear (rt : Runtime) (locale date : string) : option string :=
  match parseDateOnly date with
  | Some ymd =>
      let '(y, m) := localMonth (timeZoneOffset rt) ymd in
      if (resolveLocale rt locale =? "es-ES")%string
      then Some (monthLong_es m ++ " de " ++ year_numeric y)
      else Some (monthLong_en m ++ " " ++ year_numeric y)
  | None => None
  end.

Definition platform (rt : Runtime) (network : string -> Z -> FetchOutcome) : Platform :=
  {| fetch := network; formatMonthYear := intlMonthYear rt |}.

End Reference.

(** ** Vocabulary of the properties *)

Fixpoint startsWith (s1 s2 : string) : bool :=
  match s1, s2 with
  | EmptyString, _ => true
  | String _ _, EmptyString => false
  | String a r1, String b r2 => Ascii.eqb a b && startsWith r1 r2
  end.

(** [s.includes(needle)] *)
Fixpoint includes (needle s : string) : bool :=
  startsWith needle s
  || match s with
     | EmptyString => false
     | String _ rest => includes needle rest
     end.

Definition isWhitespace (c : ascii) : bool :=
  let n := nat_of_ascii c in
  (Nat.eqb n 32 || Nat.eqb n 9 || Nat.eqb n 10 || Nat.eqb n 11 || Nat.eqb n 12 || Nat.eqb n 13)%bool.

Fixpoint noWhitespace (s : string) : bool :=
  match s with
  | EmptyString => true
  | String c rest => negb (isWhitespace c) && noWhitespace rest
  end.

(** The whitespace-separated words of a string, as the specification counts
    them: maximal runs of characters that are not whitespace. *)
Fixpoint words (s : string) : list string :=
  match s with
  | EmptyString => []
  | String c rest =>
      if isWhitespace c then words rest
      else match rest with
           | EmptyString => [String c EmptyString]
           | String c' _ =>
               if isWhitespace c' then String c EmptyString :: words rest
               else match words rest with
                    | w :: ws => String c w :: ws
                    | [] => [String c EmptyString]
                    end
           end
  end.

(** What a paragraph shows of its text: each run of whitespace is one
    space.  [afterSpace] tells that the character before was whitespace. *)
Fixpoint collapseWhitespace (afterSpace : bool) (s : string) : string :=
  match s with
  | EmptyString => EmptyString
  | String c rest =>
      if isWhitespace c
      then (if afterSpace then collapseWhitespace true rest
            else String space (collapseWhitespace true rest))
      else String c (collapseWhitespace false rest)
  end.

(** The browser word of the accessibility label in the words of the
    specification. *)
Definition spec_word (title token : string) : string :=
  if (title =? "Unknown availability")%string then "unknown"
  else if (token =? "available")%string then "yes"
  else token.

(** The string a support key is as a JavaScript value. *)
Definition supportKeyString (k : SupportKey) : string :=
  match k with
  | available => "available"
  | unavailable => "unavailable"
  | support_newly => "newly"
  | support_widely => "widely"
  | support_no_data => "no_data"
  end.

(** The support-icon classification in the words of the specification. *)
Definition spec_classification (tier : BaselineStatusType) (fullyAvailable : bool) : string :=
  match tier with
  | limited => if fullyAvailable then "available" else "unavailable"
  | other => tierString other
  end.

(** The elements of a tree, itself included, that satisfy [p]. *)
Fixpoint elements (p : jsx -> bool) (e : jsx) : list jsx :=
  match e with
  | JFragment children => flat_map (elements p) children
  | JElement _ _ children =>
      (if p e then [e] else []) ++ flat_map (elements p) children
  | _ => []
  end.

(** An anchor whose only child is the text "Learn more". *)
Definition isLearnMore (e : jsx) : bool :=
  match e with
  | JElement tag _ children =>
      (tag =? "a")%string
      && match children with
         | [JText text] => (text =? "Learn more")%string
         | _ => false
         end
  | _ => false
  end.

Definition documentationLinks (tree : jsx) : list jsx := elements isLearnMore tree.

(** The spans [renderSupportIcon] returns. *)
Definition isSupportSpan (e : jsx) : bool :=
  match e with
  | JElement tag _ children =>
      (tag =? "span")%string
      && match children with
         | [JText _; JSupportIcon _] => true
         | _ => false
         end
  | _ => false
  end.

(** The fully-available flag and the support key of the four logical
    browsers of a view, in the order Chrome, Edge, Firefox, Safari. *)
Definition browserAvailability (v : ResolvedView) : list (bool * SupportKey) :=
  map (fun implementations =>
         (checkAvailability implementations, supportOf (rv_baseline v) implementations))
    [[rv_chrome v; rv_chromeAndroid v]; [rv_edge v];
     [rv_firefox v; rv_firefoxAndroid v]; [rv_safari v; rv_safariIos v]].

(** What a view shows of the payload, whatever the class names are. *)
Record Observables : Type := {
  o_name : string;
  o_tier : BaselineStatusType;
  o_title : string;
  o_dateLabel : string;
  o_description : string;
  o_year : option string;
  o_browsers : list (bool * SupportKey);
  o_ariaLabel : string
}.

Definition observe (v : ResolvedView) : Observables :=
  {| o_name := name (rv_feature v);
     o_tier := rv_baseline v;
     o_title := rv_title v;
     o_dateLabel := rv_baselineDate v;
     o_description := rv_description v;
     o_year := rv_year v;
     o_browsers := browserAvailability v;
     o_ariaLabel := ariaLabel v |}.

Definition isAnchor (e : jsx) : bool :=
  match e with
  | JElement tag _ _ => (tag =? "a")%string
  | _ => false
  end.

Definition isStrong (e : jsx) : bool :=
  match e with
  | JElement tag _ _ => (tag =? "strong")%string
  | _ => false
  end.

Definition attributes (e : jsx) : list (string * AttrValue) :=
  match e with
  | JElement _ attrs _ => attrs
  | _ => []
  end.

Fixpoint lookupAttr (key : string) (attrs : list (string * AttrValue)) : option AttrValue :=
  match attrs with
  | [] => None
  | (k, value) :: rest => if (k =? key)%string then Some value else lookupAttr key rest
  end.

(** [openInNewTab = false] of the destructured props. *)
Definition opensNewTab (args : BaselineStatusProps) : bool :=
  match openInNewTab args with
  | Some b => b
  | None => false
  end.

(** An invocation returns the markup of the fallback view: tier [no_data],
    the feature identifier or "Unknown feature" for name, nothing else of a
    payload, every derived field computed, the four browser words
    "unknown". *)
Definition returnsFallback (P : Platform) (styles : string -> option string)
    (args : BaselineStatusProps) : Prop :=
  exists v,
    resolveFeature P styles (featureId args) = Ok v /\
    BaselineStatus P styles args = Ok (render styles args v) /\
    rv_feature v = missingFeature (featureId args) /\
    name (rv_feature v) =
      (if truthy (featureId args) then featureId args else "Unknown feature") /\
    low_date (baseline (rv_feature v)) = None /\
    developer_signals (rv_feature v) = None /\
    browser_implementations (rv_feature v) = None /\
    rv_baseline v = no_data /\
    rv_title v = "Unknown availability" /\
    rv_baselineDate v = "" /\
    rv_description v = defaultDescription (BASELINE_DEFS no_data) /\
    rv_year v = Some "" /\
    browserAvailability v =
      [(false, support_no_data); (false, support_no_data);
       (false, support_no_data); (false, support_no_data)] /\
    exists head,
      ariaLabel v =
        head ++ ". Supported in Chrome: unknown. Supported in Edge: unknown. Supported in Firefox: unknown. Supported in Safari: unknown.".

(** ** Concrete inputs *)

Module Sample.

Definition payload (tier : BaselineStatusType) (date : option string)
    (implementations : option BrowserImplementations) : BaselineStatusData :=
  {| baseline := {| low_date := date; status := tier |};
     developer_signals := None;
     browser_implementations := implementations;
     name := "Grid" |}.

Definition impl (s : string) : Implementation := {| impl_status := s |}.

(** Every browser available but desktop Safari. *)
Definition safariDesktopMissing : BrowserImplementations :=
  {| chrome := impl "available"; chrome_android := impl "available";
     edge := impl "available";
     firefox := impl "available"; firefox_android := impl "available";
     safari := impl "unavailable"; safari_ios := impl "available" |}.

Definition utc : Reference.Runtime :=
  {| Reference.defaultLocale := "en-US"; Reference.timeZoneOffset := 0 |}.

Definition canarias : Reference.Runtime :=
  {| Reference.defaultLocale := "es-ES"; Reference.timeZoneOffset := 0 |}.

Definition newYork : Reference.Runtime :=
  {| Reference.defaultLocale := "en-US"; Reference.timeZoneOffset := -300 |}.

(** A network that answers every request with the same outcome. *)
Definition network (outcome : FetchOutcome) : string -> Z -> FetchOutcome :=
  fun _ _ => outcome.

Definition serves (rt : Reference.Runtime) (ok : bool)
    (body : BaselineStatusData + BaselineStatusError) : Platform :=
  Reference.platform rt (network (Response ok (Json body))).

Definition offline (rt : Reference.Runtime) : Platform :=
  Reference.platform rt (network Rejected).

(** A runtime whose every request is answered with JSON outside the cast. *)
Definition servesUntyped (rt : Reference.Runtime) (ok : bool) (value : json)
    (baseless : hasMember "baseline" value = false) : Platform :=
  Reference.platform rt (network (Response ok (Untyped value baseless))).

Definition notFound : BaselineStatusData + BaselineStatusError :=
  inr {| code := 404; message := "feature not found" |}.

Definition styles (key : string) : option string := Some key.

Definition args (id : string) : BaselineStatusProps :=
  {| featureId := id; openInNewTab := None; className := None; props := [] |}.

Definition argsNewTab (id : string) : BaselineStatusProps :=
  {| featureId := id; openInNewTab := Some true; className := Some "wide"; props := [] |}.

(** A payload with developer signals. *)
Definition upvoted (tier : BaselineStatusType) (n : Z) : BaselineStatusData :=
  {| baseline := {| low_date := None; status := tier |};
     developer_signals :=
       Some {| link := "https://github.com/web-platform-dx/developer-signals/issues/1";
               upvotes := n |};
     browser_implementations := None;
     name := "Grid" |}.

(** A network that answers one request and rejects every other. *)
Definition answering (url : string) (revalidate : Z) (outcome : FetchOutcome) :
    string -> Z -> FetchOutcome :=
  fun u r => if ((u =? url)%string && (r =? revalidate))%bool then outcome else Rejected.

(** A runtime whose formatter shows the year alone. *)
Definition yearOnly (network : string -> Z -> FetchOutcome) : Platform :=
  {| fetch := network; formatMonthYear := fun _ _ => Some "2024" |}.

End Sample.

(** ** Strings *)

Lemma startsWith_app (n r : string) : startsWith n (n ++ r) = true.
Proof.
  induction n as [|c n IH]; simpl.
  - reflexivity.
  - rewrite Ascii.eqb_refl. exact IH.
Qed.

Lemma includes_here (n r : string) : includes n (n ++ r) = true.
Proof.
  destruct n as [|c n]; simpl.
  - destruct r; reflexivity.
  - rewrite Ascii.eqb_refl, startsWith_app. reflexivity.
Qed.

Lemma includes_after (n a b : string) :
  includes n b = true -> includes n (a ++ b) = true.
Proof.
  intros Hb. induction a as [|c a IH]; simpl.
  - exact Hb.
  - rewrite IH. apply orb_true_r.
Qed.

Lemma truthy_false (s : string) : truthy s = false -> s = "".
Proof. destruct s; [reflexivity | discriminate]. Qed.

Lemma truthy_true (s : string) : truthy s = true <-> s <> "".
Proof. destruct s; simpl; split; congruence. Qed.

(** ** Tiers and titles *)

Lemma BaselineStatusType_eqb_spec (a b : BaselineStatusType) :
  BaselineStatusType_eqb a b = true <-> a = b.
Proof. destruct a, b; simpl; split; congruence. Qed.

Lemma title_unknown_iff (tier : BaselineStatusType) :
  (title (BASELINE_DEFS tier) =? "Unknown availability")%string = true <-> tier = no_data.
Proof. destruct tier; simpl; split; congruence. Qed.

(** ** The view of a feature *)

Lemma resolve_inv (P : Platform) (styles : string -> option string)
    (feature : BaselineStatusData) (v : ResolvedView) :
  resolve P styles feature = Ok v ->
  exists date,
    getBaselineDate P feature = Ok date /\
    rv_feature v = feature /\
    rv_baseline v = status (baseline feature) /\
    rv_title v = title (BASELINE_DEFS (status (baseline feature))) /\
    rv_badge v =
      (if BaselineStatusType_eqb (status (baseline feature)) newly
       then JElement "span" [("className", classAttr (styles "baselineBadge"))]
              [JText "newly available"]
       else JFragment []) /\
    rv_baselineDate v = date /\
    rv_description v = getDescriptionDate (status (baseline feature)) date /\
    rv_year v =
      (if BaselineStatusType_eqb (status (baseline feature)) newly && truthy date
       then nth_error (split space date) 1
       else Some "").
Proof.
  unfold resolve. destruct (getBaselineDate P feature) as [date|e]; simpl.
  - intros H. injection H as <-. exists date. simpl. repeat split; reflexivity.
  - discriminate.
Qed.

Lemma badge_truthy (P : Platform) (styles : string -> option string)
    (feature : BaselineStatusData) (v : ResolvedView) :
  resolve P styles feature = Ok v -> jsx_truthy (rv_badge v) = true.
Proof.
  intros H. destruct (resolve_inv _ _ _ _ H) as (date & _ & _ & _ & _ & Hb & _).
  rewrite Hb. destruct (BaselineStatusType_eqb _ _); reflexivity.
Qed.

(** Whatever the tier, the label of a view carries the suffix of the badge:
    the badge is an element or an empty fragment, and both are truthy. *)
Lemma ariaLabel_suffix_always (P : Platform) (styles : string -> option string)
    (feature : BaselineStatusData) (v : ResolvedView) :
  resolve P styles feature = Ok v ->
  includes " (newly available)" (ariaLabel v) = true.
Proof.
  intros H. unfold ariaLabel, getAriaLabel.
  rewrite (badge_truthy _ _ _ _ H).
  apply includes_after, includes_after, includes_after, includes_here.
Qed.

(** C1.  The label of a [widely] feature.  The claim has the suffix
    " (newly available)" in the label only for the tier [newly]; the label
    the component computes for a [widely] payload carries it, because the
    condition of the suffix tests the badge, which for every other tier is an
    empty fragment and so truthy. *)
Theorem ariaLabel_widely_has_newly_suffix :
  exists v,
    resolveFeature (Sample.serves Sample.utc true (inl (Sample.payload widely None None)))
      Sample.styles "grid" = Ok v /\
    rv_baseline v = widely /\
    rv_badge v = JFragment [] /\
    ariaLabel v =
      "Baseline: Widely available (newly available). Supported in Chrome: no. Supported in Edge: no. Supported in Firefox: no. Supported in Safari: no." /\
    includes " (newly available)" (ariaLabel v) = true.
Proof.
  eexists. split; [reflexivity|]. repeat split; reflexivity.
Qed.

(** ** The accessibility label *)

(** C3.  The four browser words of the label: "yes" for the token
    "available", else the token itself, and "unknown" for all four when the
    title is "Unknown availability", which is the title of [no_data] alone.
    In a view the tokens are those of [getStatus], so the words are "yes" or
    "no" outside [no_data]. *)
Theorem ariaLabel_browser_words :
  (forall (title : string) (year : option string) (badge : jsx)
          (chrome edge firefox safari : option string),
      getAriaLabel title year badge chrome edge firefox safari =
        "Baseline: " ++ title
          ++ (if truthyU year then " " ++ orDefault "" year else "")
          ++ (if jsx_truthy badge then " (newly available)" else "")
          ++ ". Supported in Chrome: " ++ spec_word title (orDefault "no" chrome)
          ++ ". Supported in Edge: " ++ spec_word title (orDefault "no" edge)
          ++ ". Supported in Firefox: " ++ spec_word title (orDefault "no" firefox)
          ++ ". Supported in Safari: " ++ spec_word title (orDefault "no" safari)
          ++ ".") /\
  (forall tier : BaselineStatusType,
      title (BASELINE_DEFS tier) = "Unknown availability" <-> tier = no_data) /\
  (forall (P : Platform) (styles : string -> option string)
          (feature : BaselineStatusData) (v : ResolvedView),
      resolve P styles feature = Ok v ->
      let word implementations :=
        if BaselineStatusType_eqb (rv_baseline v) no_data then "unknown"
        else if checkAvailability implementations then "yes" else "no" in
      ariaLabel v =
        "Baseline: " ++ rv_title v
          ++ (if truthyU (rv_year v) then " " ++ orDefault "" (rv_year v) else "")
          ++ (if jsx_truthy (rv_badge v) then " (newly available)" else "")
          ++ ". Supported in Chrome: " ++ word [rv_chrome v; rv_chromeAndroid v]
          ++ ". Supported in Edge: " ++ word [rv_edge v]
          ++ ". Supported in Firefox: " ++ word [rv_firefox v; rv_firefoxAndroid v]
          ++ ". Supported in Safari: " ++ word [rv_safari v; rv_safariIos v]
          ++ ".").
Proof.
  split; [|split].
  - intros title year badge chrome edge firefox safari.
    unfold getAriaLabel, spec_word.
    destruct (title =? "Unknown availability")%string; reflexivity.
  - intros tier. destruct tier; simpl; split; congruence.
  - intros P styles feature v H word.
    destruct (resolve_inv _ _ _ _ H) as (date & _ & _ & Hb & Ht & _).
    unfold ariaLabel, getAriaLabel, word, getStatus. rewrite Ht, Hb.
    repeat match goal with
           | |- context [checkAvailability ?l] => destruct (checkAvailability l)
           end;
      destruct (status (baseline feature)); reflexivity.
Qed.

Lemma ariaLabel_browser_words_witness :
  exists v,
    resolve (Sample.serves Sample.utc true Sample.notFound) Sample.styles
      (Sample.payload limited None (Some Sample.safariDesktopMissing)) = Ok v /\
    ariaLabel v =
      "Baseline: Limited availability (newly available). Supported in Chrome: yes. Supported in Edge: yes. Supported in Firefox: yes. Supported in Safari: no.".
Proof.
  eexists. split; [reflexivity|].
  etransitivity.
  - apply (proj2 (proj2 ariaLabel_browser_words)
             (Sample.serves Sample.utc true Sample.notFound) Sample.styles
             (Sample.payload limited None (Some Sample.safariDesktopMissing))).
    reflexivity.
  - reflexivity.
Defined.

(** ** Availability of a logical browser *)

Lemma isAvailable_spec (slot : option Implementation) :
  isAvailable slot = true <-> exists i, slot = Some i /\ impl_status i = "available".
Proof.
  destruct slot as [i|]; simpl.
  - rewrite String.eqb_eq. split.
    + intros H. exists i. split; [reflexivity | exact H].
    + intros (j & Hj & Hs). injection Hj as ->. exact Hs.
  - split; [discriminate | intros (j & Hj & _); discriminate].
Qed.

(** C4.  A logical browser comes as a list of one or two slots, the
    desktop and the mobile record, each of which may be absent.  It is fully
    available exactly when every slot holds a record of status "available":
    an absent record fails it, so a browser with no record at all, one with
    the desktop record "available" and the mobile one absent or different,
    and one with the mobile record alone are not fully available. *)
Theorem checkAvailability_conjunction :
  (forall implementations,
      checkAvailability implementations = true <->
      Forall (fun slot => exists i, slot = Some i /\ impl_status i = "available")
        implementations) /\
  (forall desktop, checkAvailability [Some desktop; None] = false) /\
  (forall desktop mobile,
      impl_status mobile <> "available" ->
      checkAvailability [Some desktop; Some mobile] = false) /\
  (forall mobile, checkAvailability [None; Some mobile] = false) /\
  checkAvailability [None] = false /\
  checkAvailability [None; None] = false.
Proof.
  repeat split.
  - intros H. unfold checkAvailability in H. rewrite forallb_forall in H.
    apply Forall_forall. intros slot Hin. apply isAvailable_spec, H, Hin.
  - intros H. unfold checkAvailability. apply forallb_forall.
    intros slot Hin. apply isAvailable_spec.
    rewrite Forall_forall in H. apply H, Hin.
  - intros desktop. unfold checkAvailability. simpl.
    destruct (impl_status desktop =? "available")%string; reflexivity.
  - intros desktop mobile Hm. unfold checkAvailability. simpl.
    apply String.eqb_neq in Hm. rewrite Hm.
    destruct (impl_status desktop =? "available")%string; reflexivity.
Qed.

Lemma checkAvailability_conjunction_witness :
  checkAvailability [Some (Sample.impl "available"); Some (Sample.impl "unavailable")] = false.
Proof.
  apply (proj1 (proj2 (proj2 checkAvailability_conjunction))).
  simpl. discriminate.
Defined.

(** ** Support icons *)

(** C5.  The classification is [available] or [unavailable] by the
    conjunction in the tier [limited] and the tier itself elsewhere, whatever
    the records of the browser; with desktop Safari unavailable in a [widely]
    feature, Safari and the three others are drawn [widely]. *)
Theorem supportOf_classification :
  (forall tier implementations,
      supportKeyString (supportOf tier implementations) =
      spec_classification tier (checkAvailability implementations)) /\
  (forall styles tier implementations,
      renderSupportIcon styles tier implementations =
      JElement "span"
        [("className", classAttr (supportStyles styles (supportOf tier implementations)))]
        [JText "$"; JSupportIcon (iconOf (supportOf tier implementations))]) /\
  (let safari := [Some (Sample.impl "unavailable"); Some (Sample.impl "available")] in
   checkAvailability safari = false /\ supportOf widely safari = support_widely) /\
  (let widelySpan :=
     JElement "span" [("className", AString "supportWidely")]
       [JText "$"; JSupportIcon available] in
   exists tree,
     BaselineStatus
       (Sample.serves Sample.utc true
          (inl (Sample.payload widely None (Some Sample.safariDesktopMissing))))
       Sample.styles (Sample.args "grid") = Ok tree /\
     elements isSupportSpan tree = [widelySpan; widelySpan; widelySpan; widelySpan]).
Proof.
  split; [|split; [|split]].
  - intros tier implementations. destruct tier; simpl; try reflexivity.
    destruct (checkAvailability implementations); reflexivity.
  - reflexivity.
  - split; reflexivity.
  - eexists. split; reflexivity.
Qed.

(** ** Whitespace *)

Lemma collapseWhitespace_app (s t1 t2 : string) :
  (forall b, collapseWhitespace b t1 = collapseWhitespace b t2) ->
  forall b, collapseWhitespace b (s ++ t1) = collapseWhitespace b (s ++ t2).
Proof.
  intros Ht. induction s as [|c s IH]; intros b; simpl.
  - apply Ht.
  - destruct (isWhitespace c); [destruct b|]; rewrite IH; reflexivity.
Qed.

Lemma not_whitespace_not_space (c : ascii) :
  isWhitespace c = false -> Ascii.eqb c space = false.
Proof.
  intros H. destruct (Ascii.eqb c space) eqn:E; [|reflexivity].
  apply Ascii.eqb_eq in E. subst c. discriminate H.
Qed.

Lemma split_word (w : string) : noWhitespace w = true -> split space w = [w].
Proof.
  induction w as [|c w IH]; simpl; intros H.
  - reflexivity.
  - apply andb_true_iff in H. destruct H as [Hc Hw].
    apply negb_true_iff in Hc.
    rewrite (not_whitespace_not_space _ Hc), (IH Hw). reflexivity.
Qed.

Lemma split_two_words (w1 w2 : string) :
  noWhitespace w1 = true -> noWhitespace w2 = true ->
  split space (w1 ++ String space w2) = [w1; w2].
Proof.
  intros H1 H2. induction w1 as [|c w1 IH].
  - cbn [append split]. rewrite Ascii.eqb_refl, (split_word _ H2). reflexivity.
  - cbn [noWhitespace] in H1. apply andb_true_iff in H1. destruct H1 as [Hc Hw].
    apply negb_true_iff in Hc. cbn [append split].
    rewrite (not_whitespace_not_space _ Hc), (IH Hw). reflexivity.
Qed.

Lemma words_word (w : string) : w <> "" -> noWhitespace w = true -> words w = [w].
Proof.
  induction w as [|c w IH]; intros Hne H.
  - congruence.
  - simpl in H. apply andb_true_iff in H. destruct H as [Hc Hw].
    apply negb_true_iff in Hc. simpl. rewrite Hc.
    destruct w as [|c' w'].
    + reflexivity.
    + assert (Hc' : isWhitespace c' = false).
      { simpl in Hw. apply andb_true_iff in Hw. destruct Hw as [Hw _].
        apply negb_true_iff in Hw. exact Hw. }
      rewrite Hc'. rewrite IH; [reflexivity | discriminate | exact Hw].
Qed.

Lemma isWhitespace_space : isWhitespace space = true.
Proof. reflexivity. Qed.

Lemma words_two_words (w1 w2 : string) :
  w1 <> "" -> w2 <> "" -> noWhitespace w1 = true -> noWhitespace w2 = true ->
  words (w1 ++ String space w2) = [w1; w2].
Proof.
  intros Hne1 Hne2 H1 H2. induction w1 as [|c w1 IH].
  - congruence.
  - cbn [noWhitespace] in H1. apply andb_true_iff in H1. destruct H1 as [Hc Hw].
    apply negb_true_iff in Hc.
    destruct w1 as [|c' w1'].
    + cbn [append words]. rewrite Hc, isWhitespace_space.
      rewrite (words_word _ Hne2 H2). reflexivity.
    + assert (Hc' : isWhitespace c' = false).
      { cbn [noWhitespace] in Hw. apply andb_true_iff in Hw. destruct Hw as [Hw' _].
        apply negb_true_iff in Hw'. exact Hw'. }
      change (String c (String c' w1') ++ String space w2)
        with (String c (String c' w1' ++ String space w2)).
      assert (IH' : words (String c' w1' ++ String space w2) = [String c' w1'; w2])
        by (apply IH; [discriminate | exact Hw]).
      revert IH'. cbn [append].
      generalize (w1' ++ String space w2). intros rest IH'.
      cbn [words] in *. rewrite Hc, Hc' in *. rewrite IH'. reflexivity.
Qed.

(** ** The reference platform *)

Lemma intlMonthYear_mid_march (rt : Reference.Runtime) :
  Reference.intlMonthYear rt "en-US" "2024-03-15" = Some "March 2024".
Proof.
  unfold Reference.intlMonthYear.
  change (Reference.parseDateOnly "2024-03-15") with (Some (2024, 3, 15)).
  unfold Reference.localMonth.
  destruct (Reference.timeZoneOffset rt <? 0); reflexivity.
Qed.

Lemma intlMonthYear_default_locale (rt1 rt2 : Reference.Runtime) (date : string) :
  Reference.timeZoneOffset rt1 = Reference.timeZoneOffset rt2 ->
  Reference.intlMonthYear rt1 "en-US" date = Reference.intlMonthYear rt2 "en-US" date.
Proof.
  intros Htz. unfold Reference.intlMonthYear. rewrite Htz.
  destruct (Reference.parseDateOnly date) as [ymd|]; reflexivity.
Qed.

(** The month shown is the one of the runtime's zone: west of Greenwich the
    first of March is still February. *)
Lemma intlMonthYear_time_zone :
  Reference.intlMonthYear Sample.utc "en-US" "2024-03-01" = Some "March 2024" /\
  Reference.intlMonthYear Sample.newYork "en-US" "2024-03-01" = Some "February 2024".
Proof. split; reflexivity. Qed.

(** ** The date label *)

Lemma getBaselineDate_mid_march (rt : Reference.Runtime)
    (network : string -> Z -> FetchOutcome) (feature : BaselineStatusData) :
  low_date (baseline feature) = Some "2024-03-15" ->
  getBaselineDate (Reference.platform rt network) feature = Ok "March 2024".
Proof.
  intros H. unfold getBaselineDate. rewrite H.
  cbn [truthy formatMonthYear Reference.platform].
  rewrite intlMonthYear_mid_march. reflexivity.
Qed.

(** C7.  The label of a feature whose low date is the first of March
    2024.  [new Date] reads the date as midnight UTC and the formatter is
    given no time zone, so it shows the month of that instant in the zone of
    the runtime: "March 2024" at UTC, and "February 2024" five hours west of
    it, which is not the month of the date. *)
Theorem getBaselineDate_first_of_march :
  let feature := Sample.payload newly (Some "2024-03-01") None in
  getBaselineDate (Sample.serves Sample.utc true (inl feature)) feature
    = Ok "March 2024" /\
  getBaselineDate (Sample.serves Sample.newYork true (inl feature)) feature
    = Ok "February 2024" /\
  exists v,
    resolveFeature (Sample.serves Sample.newYork true (inl feature)) Sample.styles "grid"
      = Ok v /\
    rv_baselineDate v = "February 2024" /\
    startsWith "Since February 2024 this feature" (rv_description v) = true.
Proof.
  intros feature. split; [reflexivity|]. split; [reflexivity|].
  eexists. split; [reflexivity|]. split; vm_compute; reflexivity.
Qed.

(** ** The description *)

Lemma newly_sentence_collapses (b : bool) :
  collapseWhitespace b
    (" this feature works across the latest" ++ LF
       ++ "    devices and browser versions. This feature might not work in older" ++ LF
       ++ "    devices or browsers.") =
  collapseWhitespace b
    " this feature works across the latest devices and browser versions. This feature might not work in older devices or browsers.".
Proof. destruct b; vm_compute; reflexivity. Qed.

(** C6, as stated, for the date "March 2024": the description is not the
    sentence on one line, and no full stop follows the year. *)
Lemma getDescriptionDate_newly_line_breaks :
  getDescriptionDate newly "March 2024" <>
    "Since March 2024 this feature works across the latest devices and browser versions. This feature might not work in older devices or browsers." /\
  includes "Since March 2024." (getDescriptionDate newly "March 2024") = false.
Proof.
  split.
  - intros H.
    apply (f_equal (fun s => String.eqb s (getDescriptionDate newly "March 2024"))) in H.
    vm_compute in H. discriminate H.
  - vm_compute. reflexivity.
Qed.

(** C6, amended.  With a date, the description of [newly] is the sentence
    of the claim with a line feed and four spaces where the source breaks
    the line, so a paragraph shows it as the claim writes it, and the one of
    [widely] ends in "since" and the date; every other case gives the
    default description of the tier.  For the low date "2024-03-15" the
    description starts with "Since March 2024 this feature". *)
Theorem getDescriptionDate_cases :
  (forall date, date <> "" ->
      getDescriptionDate newly date =
        "Since " ++ date ++ " this feature works across the latest" ++ LF
          ++ "    devices and browser versions. This feature might not work in older" ++ LF
          ++ "    devices or browsers." /\
      collapseWhitespace false (getDescriptionDate newly date) =
        collapseWhitespace false
          ("Since " ++ date ++ " this feature works across the latest devices and browser versions. This feature might not work in older devices or browsers.")) /\
  (forall date, date <> "" ->
      getDescriptionDate widely date =
        "This feature is well established and works across many" ++ LF
          ++ "    devices and browser versions. It" ++ rsquo
          ++ "s been available across browsers" ++ LF
          ++ "    since " ++ date) /\
  (forall tier date,
      tier = limited \/ tier = no_data \/ date = "" ->
      getDescriptionDate tier date = defaultDescription (BASELINE_DEFS tier)) /\
  (forall rt network styles,
      exists v,
        resolve (Reference.platform rt network) styles
          (Sample.payload newly (Some "2024-03-15") None) = Ok v /\
        rv_baselineDate v = "March 2024" /\
        startsWith "Since March 2024 this feature" (rv_description v) = true).
Proof.
  split; [|split; [|split]].
  - intros date Hne. apply truthy_true in Hne.
    unfold getDescriptionDate. rewrite Hne. cbn [BaselineStatusType_eqb andb].
    split; [reflexivity|].
    apply (collapseWhitespace_app "Since "). intros b.
    apply (collapseWhitespace_app date). exact newly_sentence_collapses.
  - intros date Hne. apply truthy_true in Hne.
    unfold getDescriptionDate. rewrite Hne. reflexivity.
  - intros tier date [H|[H|H]]; subst; try reflexivity.
    destruct tier; reflexivity.
  - intros rt network styles. unfold resolve.
    rewrite (getBaselineDate_mid_march rt network
               (Sample.payload newly (Some "2024-03-15") None) eq_refl).
    eexists. split; [reflexivity|]. split; vm_compute; reflexivity.
Qed.

Lemma getDescriptionDate_cases_witness :
  collapseWhitespace false (getDescriptionDate newly "March 2024") =
    "Since March 2024 this feature works across the latest devices and browser versions. This feature might not work in older devices or browsers." /\
  includes "since January 2020" (getDescriptionDate widely "January 2020") = true /\
  getDescriptionDate newly "" = defaultDescription (BASELINE_DEFS newly).
Proof.
  split; [|split].
  - etransitivity.
    + apply (proj1 getDescriptionDate_cases "March 2024"). discriminate.
    + reflexivity.
  - rewrite (proj1 (proj2 getDescriptionDate_cases) "January 2020"); [|discriminate].
    vm_compute. reflexivity.
  - apply (proj1 (proj2 (proj2 getDescriptionDate_cases))). right. right. reflexivity.
Defined.

(** ** The year token *)

(** C8.  For a [newly] view whose date label reads "Month YYYY", two words
    without whitespace and one space between them, the year token is the
    second whitespace-separated word of the label; the code takes the second
    piece of the label split at spaces.  For every other tier, and for an
    empty label, the token is the empty string. *)
Theorem year_token (P : Platform) (styles : string -> option string)
    (feature : BaselineStatusData) (v : ResolvedView) :
  resolve P styles feature = Ok v ->
  (forall month yyyy,
      rv_baseline v = newly ->
      month <> "" -> yyyy <> "" ->
      noWhitespace month = true -> noWhitespace yyyy = true ->
      rv_baselineDate v = month ++ " " ++ yyyy ->
      rv_year v = nth_error (words (rv_baselineDate v)) 1 /\ rv_year v = Some yyyy) /\
  (rv_baseline v = newly -> rv_baselineDate v <> "" ->
   rv_year v = nth_error (split space (rv_baselineDate v)) 1) /\
  (rv_baseline v <> newly \/ rv_baselineDate v = "" -> rv_year v = Some "").
Proof.
  intros H.
  destruct (resolve_inv _ _ _ _ H) as (date & _ & _ & Hb & _ & _ & Hd & _ & Hy).
  rewrite Hb, Hd, Hy. split; [|split].
  - intros month yyyy Ht Hm Hyy Hwm Hwy Hdate. rewrite Ht, Hdate.
    change (month ++ " " ++ yyyy) with (month ++ String space yyyy).
    rewrite (words_two_words _ _ Hm Hyy Hwm Hwy), (split_two_words _ _ Hwm Hwy).
    assert (Htr : truthy (month ++ String space yyyy) = true)
      by (destruct month; reflexivity).
    rewrite Htr. split; reflexivity.
  - intros Ht Hne. rewrite Ht. apply truthy_true in Hne. rewrite Hne. reflexivity.
  - intros [Ht|Hdate].
    + destruct (status (baseline feature)); [reflexivity | congruence | reflexivity | reflexivity].
    + rewrite Hdate. rewrite andb_false_r. reflexivity.
Qed.

Lemma year_token_witness :
  exists v,
    resolve (Sample.serves Sample.newYork true Sample.notFound) Sample.styles
      (Sample.payload newly (Some "2024-03-15") None) = Ok v /\
    rv_baselineDate v = "March 2024" /\
    rv_year v = Some "2024" /\
    nth_error (words (rv_baselineDate v)) 1 = Some "2024".
Proof.
  eexists. split; [reflexivity|]. split; [reflexivity|].
  destruct (proj1 (year_token
                     (Sample.serves Sample.newYork true Sample.notFound) Sample.styles
                     (Sample.payload newly (Some "2024-03-15") None) _ eq_refl)
                  "March" "2024" eq_refl) as [Hw Hy];
    try discriminate; try reflexivity.
  split; [exact Hy | rewrite <- Hw; exact Hy].
Defined.

(** ** Independence of the view *)

Lemma resolve_observe (P1 P2 : Platform) (styles1 styles2 : string -> option string)
    (feature : BaselineStatusData) :
  (forall date, formatMonthYear P1 "en-US" date = formatMonthYear P2 "en-US" date) ->
  match resolve P1 styles1 feature, resolve P2 styles2 feature with
  | Ok v1, Ok v2 => observe v1 = observe v2
  | Throw e1, Throw e2 => e1 = e2
  | _, _ => False
  end.
Proof.
  intros Hfmt. unfold resolve, getBaselineDate. 
  destruct (low_date (baseline feature)) as [date|]; cbn [bind].
  - destruct (truthy date); cbn [bind].
    + rewrite Hfmt. destruct (formatMonthYear P2 "en-US" date) as [s|]; cbn [bind].
      * unfold observe, browserAvailability, ariaLabel. cbn.
        destruct (status (baseline feature)); reflexivity.
      * reflexivity.
    + unfold observe, browserAvailability, ariaLabel. cbn.
      destruct (status (baseline feature)); reflexivity.
  - unfold observe, browserAvailability, ariaLabel. cbn.
    destruct (status (baseline feature)); reflexivity.
Qed.

(** C9.  Two invocations that receive the same payload from a successful
    response, on runtimes that format dates alike, show the same name, tier,
    title, date label, description, year token, browser classifications and
    accessibility label, or raise the same error: nothing else the
    invocations differ in, the feature identifier, the class names, the rest
    of the network, reaches these fields. *)
Theorem resolution_depends_on_payload_only
    (P1 P2 : Platform) (styles1 styles2 : string -> option string)
    (id1 id2 : string) (payload : BaselineStatusData) :
  (forall date, formatMonthYear P1 "en-US" date = formatMonthYear P2 "en-US" date) ->
  fetch P1 (API_ENDPOINT ++ id1) FETCH_CACHE_TTL_SECONDS = Response true (Json (inl payload)) ->
  fetch P2 (API_ENDPOINT ++ id2) FETCH_CACHE_TTL_SECONDS = Response true (Json (inl payload)) ->
  match resolveFeature P1 styles1 id1, resolveFeature P2 styles2 id2 with
  | Ok v1, Ok v2 => observe v1 = observe v2
  | Throw e1, Throw e2 => e1 = e2
  | _, _ => False
  end.
Proof.
  intros Hfmt H1 H2. unfold resolveFeature. rewrite H1, H2.
  cbn [selectFeature hasBaseline andb].
  apply resolve_observe, Hfmt.
Qed.

Lemma resolution_depends_on_payload_only_witness :
  let payload := Sample.payload newly (Some "2024-03-15") (Some Sample.safariDesktopMissing) in
  match resolveFeature (Sample.serves Sample.utc true (inl payload)) Sample.styles "grid",
        resolveFeature (Sample.serves Sample.utc true (inl payload)) (fun _ => None) "subgrid"
  with
  | Ok v1, Ok v2 => observe v1 = observe v2
  | Throw e1, Throw e2 => e1 = e2
  | _, _ => False
  end.
Proof.
  intros payload.
  apply (resolution_depends_on_payload_only
           (Sample.serves Sample.utc true (inl payload))
           (Sample.serves Sample.utc true (inl payload))
           Sample.styles (fun _ => None) "grid" "subgrid" payload);
    reflexivity.
Defined.

(** ** The documentation link *)

Lemma signalsBadge_no_link (styles : string -> option string)
    (args : BaselineStatusProps) (v : ResolvedView) :
  documentationLinks (signalsBadge styles args v) = [].
Proof.
  unfold signalsBadge.
  destruct (rv_upvoteUrl v) as [url|]; [|reflexivity].
  destruct (truthy url); [|reflexivity].
  destruct (rv_upvotes v); reflexivity.
Qed.

Lemma render_documentationLinks (styles : string -> option string)
    (args : BaselineStatusProps) (v : ResolvedView) :
  documentationLinks (rv_preTitle v) = [] ->
  documentationLinks (rv_badge v) = [] ->
  documentationLinks (render styles args v) =
  documentationLinks (learnMore args (rv_baseline v)).
Proof.
  intros Hp Hb. unfold documentationLinks in *. unfold render.
  cbn [elements flat_map isLearnMore app browserSpan renderSupportIcon openIcon
       String.eqb Ascii.eqb Bool.eqb andb].
  fold (documentationLinks (signalsBadge styles args v)).
  rewrite signalsBadge_no_link.
  unfold documentationLinks. rewrite Hp, Hb.
  destruct (rv_year v); cbn [elements app]; rewrite ?app_nil_r; reflexivity.
Qed.

Lemma learnMore_link (args : BaselineStatusProps) (tier : BaselineStatusType) :
  documentationLinks (learnMore args tier) =
  if BaselineStatusType_eqb tier no_data then []
  else [JElement "a"
          (("href",
            AString ("https://github.com/web-platform-dx/web-features/blob/main/features/"
                     ++ featureId args ++ ".yml"))
           :: linkTarget args)
          [JText "Learn more"]].
Proof. unfold learnMore. destruct (BaselineStatusType_eqb tier no_data); reflexivity. Qed.

Lemma resolve_no_link (P : Platform) (styles : string -> option string)
    (feature : BaselineStatusData) (v : ResolvedView) :
  resolve P styles feature = Ok v ->
  documentationLinks (rv_preTitle v) = [] /\ documentationLinks (rv_badge v) = [].
Proof.
  unfold resolve. destruct (getBaselineDate P feature) as [date|e]; cbn [bind];
    [|discriminate].
  intros H. injection H as <-. cbn.
  destruct (status (baseline feature)); split; reflexivity.
Qed.

Lemma resolveFeature_resolve (P : Platform) (styles : string -> option string)
    (id : string) (v : ResolvedView) :
  resolveFeature P styles id = Ok v ->
  exists feature, resolve P styles feature = Ok v.
Proof.
  unfold resolveFeature.
  destruct (fetch P (API_ENDPOINT ++ id) FETCH_CACHE_TTL_SECONDS)
    as [|ok [|responseJson|value baseless]]; try discriminate.
  - intros H. eexists. exact H.
  - destruct (if ok then inOperator "baseline" value else Ok false) as [present|e];
      cbn [bind]; [|discriminate].
    intros H. eexists. exact H.
Qed.

(** C10.  The markup of a view holds the link "Learn more", to the page of
    the feature in the web-features repository, exactly when the tier is
    not [no_data], and holds it once. *)
Theorem learn_more_unless_no_data (P : Platform) (styles : string -> option string)
    (args : BaselineStatusProps) (v : ResolvedView) :
  resolveFeature P styles (featureId args) = Ok v ->
  BaselineStatus P styles args = Ok (render styles args v) /\
  documentationLinks (render styles args v) =
    (if BaselineStatusType_eqb (rv_baseline v) no_data then []
     else [JElement "a"
             (("href",
               AString ("https://github.com/web-platform-dx/web-features/blob/main/features/"
                        ++ featureId args ++ ".yml"))
              :: linkTarget args)
             [JText "Learn more"]]) /\
  (documentationLinks (render styles args v) <> [] <-> rv_baseline v <> no_data).
Proof.
  intros H. split; [|split].
  - unfold BaselineStatus. rewrite H. reflexivity.
  - destruct (resolveFeature_resolve _ _ _ _ H) as (feature & Hr).
    destruct (resolve_no_link _ _ _ _ Hr) as [Hp Hb].
    rewrite (render_documentationLinks _ _ _ Hp Hb). apply learnMore_link.
  - destruct (resolveFeature_resolve _ _ _ _ H) as (feature & Hr).
    destruct (resolve_no_link _ _ _ _ Hr) as [Hp Hb].
    rewrite (render_documentationLinks _ _ _ Hp Hb), learnMore_link.
    destruct (rv_baseline v); cbn; split; congruence.
Qed.

Lemma learn_more_unless_no_data_witness :
  exists v,
    resolveFeature
      (Sample.serves Sample.utc true (inl (Sample.payload limited None None)))
      Sample.styles "grid" = Ok v /\
    documentationLinks (render Sample.styles (Sample.args "grid") v) =
      [JElement "a"
         [("href",
           AString "https://github.com/web-platform-dx/web-features/blob/main/features/grid.yml");
          ("target", AString "_top"); ("rel", AUndefined)]
         [JText "Learn more"]].
Proof.
  eexists. split; [reflexivity|].
  etransitivity.
  - apply (learn_more_unless_no_data
             (Sample.serves Sample.utc true (inl (Sample.payload limited None None)))
             Sample.styles (Sample.args "grid")).
    reflexivity.
  - reflexivity.
Defined.

(** ** Retrieval failures *)

(** C2, as stated, at a request that does not complete: the rejection of
    [fetch] is the rejection of the component, and no view is returned. *)
Lemma BaselineStatus_offline_rejects :
  BaselineStatus (Sample.offline Sample.utc) Sample.styles (Sample.args "grid")
    = Throw FetchRejected /\
  isOk (BaselineStatus (Sample.offline Sample.utc) Sample.styles (Sample.args "grid"))
    = false.
Proof. split; reflexivity. Qed.

(** On a body without the member [baseline] the test of the member is
    false whenever it returns. *)
Lemma inOperator_baseless (value : json) (present : bool) :
  hasMember "baseline" value = false ->
  inOperator "baseline" value = Ok present -> present = false.
Proof.
  unfold inOperator. intros Hm. destruct (isObject value); [|discriminate].
  intros H. injection H as <-. exact Hm.
Qed.

Lemma untyped_body (P : Platform) (styles : string -> option string)
    (id : string) (ok : bool) (value : json) :
  (present <- (if ok then inOperator "baseline" value else Ok false) ;;
   resolve P styles (missingFeature id))
  = if ok && negb (isObject value) then Throw TypeError
    else resolve P styles (missingFeature id).
Proof.
  unfold inOperator. destruct ok; [|reflexivity].
  destruct (isObject value); reflexivity.
Qed.

Lemma missingFeature_fallback (P : Platform) (styles : string -> option string)
    (args : BaselineStatusProps) :
  resolveFeature P styles (featureId args)
    = resolve P styles (missingFeature (featureId args)) ->
  returnsFallback P styles args.
Proof.
  intros H. unfold returnsFallback. eexists. split.
  - rewrite H. reflexivity.
  - split.
    + unfold BaselineStatus. rewrite H. reflexivity.
    + repeat (split; [reflexivity|]).
      exists "Baseline: Unknown availability (newly available)". reflexivity.
Qed.

(** C2, amended.  When the request completes with a JSON body, and the
    status is not a success or the body is an object without the member
    [baseline], the component returns the markup of the fallback view: tier
    [no_data], the feature identifier or "Unknown feature" for name, no
    date, signals or implementations, every derived field computed, the four
    browser words "unknown".  A request that does not complete, and a body
    that is not JSON, reject the component; so does, with the [TypeError] of
    the operator [in], the body of a success that is JSON but not an
    object. *)
Theorem fallback_view (P : Platform) (styles : string -> option string)
    (args : BaselineStatusProps) :
  let outcome := fetch P (API_ENDPOINT ++ featureId args) FETCH_CACHE_TTL_SECONDS in
  (forall ok responseJson,
      outcome = Response ok (Json responseJson) ->
      ok = false \/ hasBaseline responseJson = false ->
      returnsFallback P styles args) /\
  (forall ok value baseless,
      outcome = Response ok (Untyped value baseless) ->
      ok = false \/ isObject value = true ->
      returnsFallback P styles args) /\
  (outcome = Rejected -> BaselineStatus P styles args = Throw FetchRejected) /\
  (forall ok, outcome = Response ok NotJson ->
              BaselineStatus P styles args = Throw JsonSyntaxError) /\
  (forall value baseless,
      outcome = Response true (Untyped value baseless) ->
      isObject value = false ->
      BaselineStatus P styles args = Throw TypeError).
Proof.
  intros outcome. subst outcome. repeat split.
  - intros ok responseJson Hfetch Hfail. apply missingFeature_fallback.
    unfold resolveFeature. rewrite Hfetch. f_equal.
    unfold selectFeature. destruct responseJson as [data|err]; [|reflexivity].
    destruct Hfail as [->|Hb]; [reflexivity | discriminate Hb].
  - intros ok value baseless Hfetch Hfail. apply missingFeature_fallback.
    unfold resolveFeature. rewrite Hfetch, untyped_body.
    destruct Hfail as [Hok | Hobj].
    + rewrite Hok. reflexivity.
    + rewrite Hobj, andb_false_r. reflexivity.
  - intros Hfetch. unfold BaselineStatus, resolveFeature. rewrite Hfetch. reflexivity.
  - intros ok Hfetch. unfold BaselineStatus, resolveFeature. rewrite Hfetch. reflexivity.
  - intros value baseless Hfetch Hobj.
    unfold BaselineStatus, resolveFeature. rewrite Hfetch. cbv beta iota.
    unfold inOperator. rewrite Hobj. reflexivity.
Qed.

Lemma fallback_view_witness :
  returnsFallback (Sample.serves Sample.utc false Sample.notFound) Sample.styles
    (Sample.args "") /\
  returnsFallback
    (Sample.servesUntyped Sample.utc true (json_object [("error", json_null)]) eq_refl)
    Sample.styles (Sample.args "grid") /\
  returnsFallback (Sample.servesUntyped Sample.utc false json_null eq_refl)
    Sample.styles (Sample.args "grid") /\
  BaselineStatus (Sample.offline Sample.utc) Sample.styles (Sample.args "grid")
    = Throw FetchRejected /\
  BaselineStatus (Reference.platform Sample.utc (Sample.network (Response false NotJson)))
    Sample.styles (Sample.args "grid") = Throw JsonSyntaxError /\
  BaselineStatus (Sample.servesUntyped Sample.utc true json_null eq_refl)
    Sample.styles (Sample.args "grid") = Throw TypeError.
Proof.
  split; [|split; [|split; [|split; [|split]]]].
  - apply (proj1 (fallback_view (Sample.serves Sample.utc false Sample.notFound)
                    Sample.styles (Sample.args ""))
                 false Sample.notFound eq_refl).
    left. reflexivity.
  - apply (proj1 (proj2 (fallback_view
                           (Sample.servesUntyped Sample.utc true
                              (json_object [("error", json_null)]) eq_refl)
                           Sample.styles (Sample.args "grid")))
                 true (json_object [("error", json_null)]) eq_refl eq_refl).
    right. reflexivity.
  - apply (proj1 (proj2 (fallback_view
                           (Sample.servesUntyped Sample.utc false json_null eq_refl)
                           Sample.styles (Sample.args "grid")))
                 false json_null eq_refl eq_refl).
    left. reflexivity.
  - apply (proj1 (proj2 (proj2 (fallback_view (Sample.offline Sample.utc)
                                  Sample.styles (Sample.args "grid"))))).
    reflexivity.
  - apply (proj1 (proj2 (proj2 (proj2 (fallback_view
                           (Reference.platform Sample.utc
                              (Sample.network (Response false NotJson)))
                           Sample.styles (Sample.args "grid"))))) false).
    reflexivity.
  - apply (proj2 (proj2 (proj2 (proj2 (fallback_view
                           (Sample.servesUntyped Sample.utc true json_null eq_refl)
                           Sample.styles (Sample.args "grid")))))
                 json_null eq_refl eq_refl).
    reflexivity.
Defined.

(** ** The markup of a view *)

Lemma resolve_fields (P : Platform) (styles : string -> option string)
    (feature : BaselineStatusData) (v : ResolvedView) :
  resolve P styles feature = Ok v ->
  rv_feature v = feature /\
  rv_baseline v = status (baseline feature) /\
  rv_preTitle v =
    (if BaselineStatusType_eqb (status (baseline feature)) limited
        || BaselineStatusType_eqb (status (baseline feature)) no_data
     then JFragment []
     else JElement "strong" [] [JText "Baseline"]) /\
  rv_badge v =
    (if BaselineStatusType_eqb (status (baseline feature)) newly
     then JElement "span" [("className", classAttr (styles "baselineBadge"))]
            [JText "newly available"]
     else JFragment []) /\
  rv_upvoteUrl v = option_map link (developer_signals feature) /\
  rv_upvotes v = option_map upvotes (developer_signals feature) /\
  [rv_chrome v; rv_chromeAndroid v; rv_edge v; rv_firefox v; rv_firefoxAndroid v;
   rv_safari v; rv_safariIos v] =
    map (fun key => option_map key (browser_implementations feature))
      [chrome; chrome_android; edge; firefox; firefox_android; safari; safari_ios].
Proof.
  unfold resolve. destruct (getBaselineDate P feature) as [date|e]; cbn [bind];
    [|discriminate].
  intros H. injection H as <-. cbn. repeat split; reflexivity.
Qed.

Lemma resolveFeature_fields (P : Platform) (styles : string -> option string)
    (id : string) (v : ResolvedView) :
  resolveFeature P styles id = Ok v -> resolve P styles (rv_feature v) = Ok v.
Proof.
  intros H. destruct (resolveFeature_resolve _ _ _ _ H) as (feature & Hr).
  destruct (resolve_fields _ _ _ _ Hr) as (-> & _). exact Hr.
Qed.

(** The elements of the markup that satisfy a predicate on tags are those
    of the four parts that vary with the view. *)
Ltac elements_of_render :=
  unfold render;
  cbn [elements flat_map app browserSpan renderSupportIcon openIcon
       isAnchor isStrong isSupportSpan String.eqb Ascii.eqb Bool.eqb andb];
  rewrite ?app_nil_r.

Lemma render_anchors (styles : string -> option string)
    (args : BaselineStatusProps) (v : ResolvedView) :
  elements isAnchor (rv_preTitle v) = [] ->
  elements isAnchor (rv_badge v) = [] ->
  elements isAnchor (render styles args v) =
  (elements isAnchor (signalsBadge styles args v)
   ++ elements isAnchor (learnMore args (rv_baseline v)))%list.
Proof.
  intros Hp Hb. elements_of_render. rewrite Hp, Hb.
  destruct (rv_year v); cbn [elements app]; rewrite ?app_nil_r; reflexivity.
Qed.

Lemma resolve_no_anchor (P : Platform) (styles : string -> option string)
    (feature : BaselineStatusData) (v : ResolvedView) :
  resolve P styles feature = Ok v ->
  elements isAnchor (rv_preTitle v) = [] /\ elements isAnchor (rv_badge v) = [].
Proof.
  intros H. destruct (resolve_fields _ _ _ _ H) as (_ & _ & -> & -> & _).
  destruct (status (baseline feature)); split; reflexivity.
Qed.

(** The anchors of the markup, in document order: the badge of the
    developer signals, present when the payload has signals with a
    non-empty link, and the documentation link, present outside [no_data].
    The badge shows the count of upvotes as it is, zero included, and its
    title says "upvote" for one upvote and "upvotes" for every other count. *)
Theorem anchors_of_markup (P : Platform) (styles : string -> option string)
    (args : BaselineStatusProps) (v : ResolvedView) :
  resolveFeature P styles (featureId args) = Ok v ->
  elements isAnchor (render styles args v) =
  ((match developer_signals (rv_feature v) with
    | Some signals =>
        if truthy (link signals) then
          [JElement "a"
             ([("className", classAttr (styles "signalsBadge"));
               ("href", AString (link signals))]
              ++ linkTarget args
              ++ [("title",
                   AString (NilZero.string_of_int (Z.to_int (upvotes signals))
                            ++ (if upvotes signals =? 1
                                then " developer upvote"
                                else " developer upvotes")
                            ++ ". Need this feature across browsers? Click this and upvote it on GitHub."))])
             [JText "👍 "; JNumber (upvotes signals)]]
        else []
    | None => []
    end)
   ++
   (if BaselineStatusType_eqb (rv_baseline v) no_data then []
    else [JElement "a"
            (("href",
              AString ("https://github.com/web-platform-dx/web-features/blob/main/features/"
                       ++ featureId args ++ ".yml"))
             :: linkTarget args)
            [JText "Learn more"]]))%list.
Proof.
  intros H. apply resolveFeature_fields in H.
  destruct (resolve_no_anchor _ _ _ _ H) as [Hp Hb].
  rewrite (render_anchors _ _ _ Hp Hb). f_equal.
  - destruct (resolve_fields _ _ _ _ H) as (_ & _ & _ & _ & Hu & Hn & _).
    unfold signalsBadge. rewrite Hu, Hn.
    destruct (developer_signals (rv_feature v)) as [[url count]|];
      cbn [option_map link upvotes]; [|reflexivity].
    destruct (truthy url); [|reflexivity].
    cbn [elements isAnchor String.eqb Ascii.eqb Bool.eqb flat_map app].
    destruct (Z.eqb_spec count 0) as [Hzero|Hzero];
      [rewrite Hzero|]; destruct (count =? 1); reflexivity.
  - unfold learnMore. destruct (BaselineStatusType_eqb (rv_baseline v) no_data); reflexivity.
Qed.

Lemma anchors_of_markup_witness :
  exists v,
    resolveFeature (Sample.serves Sample.utc true (inl (Sample.upvoted no_data 1)))
      Sample.styles "grid" = Ok v /\
    elements isAnchor (render Sample.styles (Sample.args "grid") v) =
      [JElement "a"
         [("className", AString "signalsBadge");
          ("href", AString "https://github.com/web-platform-dx/developer-signals/issues/1");
          ("target", AString "_top"); ("rel", AUndefined);
          ("title",
           AString "1 developer upvote. Need this feature across browsers? Click this and upvote it on GitHub.")]
         [JText "👍 "; JNumber 1]].
Proof.
  eexists. split; [reflexivity|].
  etransitivity.
  - apply (anchors_of_markup
             (Sample.serves Sample.utc true (inl (Sample.upvoted no_data 1)))
             Sample.styles (Sample.args "grid")).
    reflexivity.
  - reflexivity.
Defined.

Lemma linkTarget_attrs (args : BaselineStatusProps) (before : list (string * AttrValue)) 
    (after : list (string * AttrValue)) :
  lookupAttr "target" before = None -> lookupAttr "rel" before = None ->
  lookupAttr "target" (before ++ linkTarget args ++ after)
    = Some (AString (if opensNewTab args then "_blank" else "_top")) /\
  lookupAttr "rel" (before ++ linkTarget args ++ after)
    = Some (if opensNewTab args then AString "noopener noreferrer" else AUndefined).
Proof.
  induction before as [|[k value] before IH]; cbn [lookupAttr app].
  - intros _ _. split; reflexivity.
  - destruct (k =? "target")%string; [discriminate|].
    destruct (k =? "rel")%string; [discriminate|]. exact IH.
Qed.

(** Every anchor of the markup, the badge of the signals and the
    documentation link alike, opens as the caller asked: in a new tab with
    [rel="noopener noreferrer"] when [openInNewTab] is true, and in the top
    context without [rel] when it is false or left out. *)
Theorem anchors_open_as_asked (P : Platform) (styles : string -> option string)
    (args : BaselineStatusProps) (v : ResolvedView) :
  resolveFeature P styles (featureId args) = Ok v ->
  Forall
    (fun anchor =>
       lookupAttr "target" (attributes anchor)
         = Some (AString (if opensNewTab args then "_blank" else "_top")) /\
       lookupAttr "rel" (attributes anchor)
         = Some (if opensNewTab args then AString "noopener noreferrer" else AUndefined))
    (elements isAnchor (render styles args v)).
Proof.
  intros H. apply resolveFeature_fields in H.
  destruct (resolve_no_anchor _ _ _ _ H) as [Hp Hb].
  rewrite (render_anchors _ _ _ Hp Hb). apply Forall_app. split.
  - unfold signalsBadge.
    destruct (rv_upvoteUrl v) as [url|]; [|constructor].
    destruct (truthy url); [|constructor].
    destruct (rv_upvotes v) as [count|]; [|constructor].
    cbn [elements isAnchor String.eqb Ascii.eqb Bool.eqb flat_map app].
    constructor; [|constructor]. cbn [attributes].
    apply (linkTarget_attrs args
             [("className", classAttr (styles "signalsBadge")); ("href", AString url)]);
      reflexivity.
  - unfold learnMore. destruct (BaselineStatusType_eqb (rv_baseline v) no_data);
      [constructor|].
    cbn [elements isAnchor String.eqb Ascii.eqb Bool.eqb flat_map app].
    constructor; [|constructor]. cbn [attributes].
    apply (linkTarget_attrs args [_] []); reflexivity.
Qed.

Lemma anchors_open_as_asked_witness :
  exists v,
    resolveFeature (Sample.serves Sample.utc true (inl (Sample.upvoted widely 12)))
      Sample.styles "grid" = Ok v /\
    length (elements isAnchor (render Sample.styles (Sample.argsNewTab "grid") v)) = 2%nat /\
    Forall
      (fun anchor =>
         lookupAttr "target" (attributes anchor) = Some (AString "_blank") /\
         lookupAttr "rel" (attributes anchor) = Some (AString "noopener noreferrer"))
      (elements isAnchor (render Sample.styles (Sample.argsNewTab "grid") v)).
Proof.
  eexists. split; [reflexivity|]. split; [reflexivity|].
  apply (anchors_open_as_asked
           (Sample.serves Sample.utc true (inl (Sample.upvoted widely 12)))
           Sample.styles (Sample.argsNewTab "grid")).
  reflexivity.
Defined.

(** ** Errors *)

(** On a response whose body is not JSON, is JSON without the member
    [baseline], or is a payload of the declared interface, the component is
    rejected in four cases and no other: the request does not complete; the
    body is not JSON, whatever the status; the response is a success whose
    JSON body is not an object, on which the test of the member throws; the
    response is a success with a payload whose [low_date] is a non-empty
    string that the platform cannot read as a date.  Nothing in the body of
    a response that is not a success rejects the component. *)
Theorem BaselineStatus_rejections (P : Platform) (styles : string -> option string)
    (args : BaselineStatusProps) (e : exn) :
  let outcome := fetch P (API_ENDPOINT ++ featureId args) FETCH_CACHE_TTL_SECONDS in
  BaselineStatus P styles args = Throw e <->
  (outcome = Rejected /\ e = FetchRejected)
  \/ (exists ok, outcome = Response ok NotJson /\ e = JsonSyntaxError)
  \/ (exists value baseless,
         outcome = Response true (Untyped value baseless) /\
         isObject value = false /\
         e = TypeError)
  \/ (exists payload date,
         outcome = Response true (Json (inl payload)) /\
         low_date (baseline payload) = Some date /\
         date <> "" /\
         formatMonthYear P "en-US" date = None /\
         e = RangeError).
Proof.
  intros outcome. subst outcome. unfold BaselineStatus, resolveFeature.
  destruct (fetch P (API_ENDPOINT ++ featureId args) FETCH_CACHE_TTL_SECONDS)
    as [|ok [|[payload|err]|value baseless]]; cbn [bind selectFeature hasBaseline].
  - split.
    + intros H. left. split; [reflexivity | congruence].
    + intros [[_ ->]|[(ok & H & _)|[(u & b & H & _)|(p & d & H & _)]]];
        [reflexivity | discriminate H ..].
  - split.
    + intros H. right. left. exists ok. split; [reflexivity | congruence].
    + intros [[H _]|[(ok' & _ & ->)|[(u & b & H & _)|(p & d & H & _)]]];
        [discriminate H | reflexivity | discriminate H ..].
  - destruct ok; cbn [andb].
    + unfold resolve, getBaselineDate.
      destruct (low_date (baseline payload)) as [date|] eqn:Hdate; cbn [bind].
      * destruct (truthy date) eqn:Ht; cbn [bind].
        -- destruct (formatMonthYear P "en-US" date) as [s|] eqn:Hf; cbn [bind].
           ++ split; [discriminate|].
              intros [[H _]|[(ok' & H & _)|[(u & b & H & _)
                                           |(p & d & H & Hd & _ & Hn & _)]]];
                try discriminate H.
              injection H as <-. rewrite Hdate in Hd. injection Hd as <-.
              rewrite Hf in Hn. discriminate Hn.
           ++ split.
              ** intros H. right. right. right. exists payload, date.
                 repeat split; try reflexivity; try assumption.
                 --- apply truthy_true, Ht.
                 --- congruence.
              ** intros [[H _]|[(ok' & H & _)|[(u & b & H & _)
                                              |(p & d & _ & _ & _ & _ & ->)]]];
                   [discriminate H | discriminate H | discriminate H | reflexivity].
        -- split; [discriminate|].
           intros [[H _]|[(ok' & H & _)|[(u & b & H & _)|(p & d & H & Hd & Hne & _)]]];
             try discriminate H.
           injection H as <-. rewrite Hdate in Hd. injection Hd as <-.
           apply truthy_false in Ht. contradiction.
      * split; [discriminate|].
        intros [[H _]|[(ok' & H & _)|[(u & b & H & _)|(p & d & H & Hd & _)]]];
          try discriminate H.
        injection H as <-. rewrite Hdate in Hd. discriminate Hd.
    + split; [discriminate|].
      intros [[H _]|[(ok' & H & _)|[(u & b & H & _)|(p & d & H & _)]]]; discriminate H.
  - split; [discriminate|].
    intros [[H _]|[(ok' & H & _)|[(u & b & H & _)|(p & d & H & _)]]]; discriminate H.
  - rewrite untyped_body.
    destruct ok; cbn [andb]; [destruct (isObject value) eqn:Hobj; cbn [negb]|].
    + split; [discriminate|].
      intros [[H _]|[(ok' & H & _)|[(u & b & H & Hu & _)|(p & d & H & _)]]];
        try discriminate H.
      injection H as <-. rewrite Hobj in Hu. discriminate Hu.
    + split.
      * intros H. cbn [bind] in H. right. right. left. exists value, baseless.
        repeat split; [exact Hobj | congruence].
      * intros [[H _]|[(ok' & H & _)|[(u & b & _ & _ & ->)|(p & d & H & _)]]];
          [discriminate H | discriminate H | reflexivity | discriminate H].
    + split; [discriminate|].
      intros [[H _]|[(ok' & H & _)|[(u & b & H & _)|(p & d & H & _)]]]; discriminate H.
Qed.

Lemma BaselineStatus_rejections_witness :
  BaselineStatus
    (Sample.serves Sample.utc true (inl (Sample.payload widely (Some "soon") None)))
    Sample.styles (Sample.args "grid") = Throw RangeError /\
  isOk (BaselineStatus
          (Sample.serves Sample.utc false (inl (Sample.payload widely (Some "soon") None)))
          Sample.styles (Sample.args "grid")) = true.
Proof.
  split; [|reflexivity].
  apply (proj2 (BaselineStatus_rejections
                  (Sample.serves Sample.utc true
                     (inl (Sample.payload widely (Some "soon") None)))
                  Sample.styles (Sample.args "grid") RangeError)).
  right. right. right. exists (Sample.payload widely (Some "soon") None), "soon".
  repeat split; try reflexivity. discriminate.
Defined.

(** ** The request *)

Lemma resolve_platform (P1 P2 : Platform) (styles : string -> option string)
    (feature : BaselineStatusData) :
  (forall date, formatMonthYear P1 "en-US" date = formatMonthYear P2 "en-US" date) ->
  resolve P1 styles feature = resolve P2 styles feature.
Proof.
  intros Hfmt. unfold resolve, getBaselineDate.
  destruct (low_date (baseline feature)) as [date|]; [|reflexivity].
  destruct (truthy date); [|reflexivity].
  rewrite Hfmt. reflexivity.
Qed.

(** Of the network the component reads one answer: that of the endpoint
    followed by the feature identifier as it is given, asked for with a
    revalidation time of one week in seconds.  Two runtimes that agree on
    this answer and on the en-US formatting of dates give the same markup or
    the same rejection, whatever else their networks answer. *)
Theorem BaselineStatus_reads_one_answer (P1 P2 : Platform)
    (styles : string -> option string) (args : BaselineStatusProps) :
  fetch P1 ("https://api.webstatus.dev/v1/features/" ++ featureId args) 604800
    = fetch P2 ("https://api.webstatus.dev/v1/features/" ++ featureId args) 604800 ->
  (forall date, formatMonthYear P1 "en-US" date = formatMonthYear P2 "en-US" date) ->
  BaselineStatus P1 styles args = BaselineStatus P2 styles args.
Proof.
  intros Hfetch Hfmt. unfold BaselineStatus, resolveFeature.
  change FETCH_CACHE_TTL_SECONDS with 604800.
  change API_ENDPOINT with "https://api.webstatus.dev/v1/features/".
  rewrite Hfetch.
  destruct (fetch P2 ("https://api.webstatus.dev/v1/features/" ++ featureId args) 604800)
    as [|ok [|responseJson|value baseless]]; try reflexivity;
    rewrite (resolve_platform P1 P2 styles _ Hfmt); reflexivity.
Qed.

Lemma BaselineStatus_reads_one_answer_witness :
  let answer := Response true (Json (inl (Sample.payload widely (Some "2020-01-29") None))) in
  BaselineStatus
    (Reference.platform Sample.utc
       (Sample.answering "https://api.webstatus.dev/v1/features/css grid?x=1" 604800 answer))
    Sample.styles (Sample.args "css grid?x=1")
  = BaselineStatus (Reference.platform Sample.canarias (Sample.network answer))
      Sample.styles (Sample.args "css grid?x=1").
Proof.
  intros answer.
  apply BaselineStatus_reads_one_answer.
  - reflexivity.
  - intros date. apply intlMonthYear_default_locale. reflexivity.
Defined.

(** ** Icons and tokens *)

(** The icon drawn beside a browser is one of three, never one keyed by
    [newly] or [widely].  In the tier [limited] it follows the token of the
    accessibility label: the available icon for the token "available", the
    unavailable one for "no".  In [newly] and [widely] it is the available
    icon for every browser, also for one whose token is "no"; in [no_data]
    it is the icon of [no_data]. *)
Theorem icon_and_token (tier : BaselineStatusType)
    (implementations : list (option Implementation)) :
  let icon := iconOf (supportOf tier implementations) in
  (icon = available \/ icon = unavailable \/ icon = support_no_data) /\
  (tier = limited ->
   (icon = available <-> getStatus implementations = "available") /\
   (icon = unavailable <-> getStatus implementations = "no")) /\
  (tier = newly \/ tier = widely -> icon = available) /\
  (tier = no_data -> icon = support_no_data) /\
  (icon = unavailable -> tier = limited).
Proof.
  unfold getStatus, supportOf.
  destruct tier; cbn; destruct (checkAvailability implementations); cbn;
    repeat split; intros; try discriminate; try reflexivity; auto;
    repeat match goal with
           | H : _ \/ _ |- _ => destruct H
           end; try discriminate; auto.
Qed.

Lemma icon_and_token_witness :
  iconOf (supportOf limited [Some (Sample.impl "available"); None]) = unavailable /\
  iconOf (supportOf widely [Some (Sample.impl "unavailable"); Some (Sample.impl "available")])
    = available /\
  getStatus [Some (Sample.impl "unavailable"); Some (Sample.impl "available")] = "no".
Proof.
  split; [|split; [|reflexivity]].
  - apply (proj1 (proj2 (icon_and_token limited [Some (Sample.impl "available"); None]))
             eq_refl).
    reflexivity.
  - apply (proj1 (proj2 (proj2 (icon_and_token widely
             [Some (Sample.impl "unavailable"); Some (Sample.impl "available")])))).
    right. reflexivity.
Defined.

(** ** Edges of the label *)

(** The table has no title for [newly]: the label of a [newly] view, and of
    no other, has nothing between "Baseline: " and the space that starts
    the year or the badge suffix. *)
Theorem label_without_title (P : Platform) (styles : string -> option string)
    (feature : BaselineStatusData) (v : ResolvedView) :
  resolve P styles feature = Ok v ->
  (startsWith "Baseline:  " (ariaLabel v) = true <-> rv_baseline v = newly).
Proof.
  intros H.
  destruct (resolve_inv _ _ _ _ H) as (date & _ & _ & Hb & Ht & Hbadge & _).
  unfold ariaLabel, getAriaLabel. rewrite Ht, Hbadge, Hb.
  destruct (status (baseline feature)); cbn; try (split; congruence).
  destruct (truthyU (rv_year v)); cbn; split; congruence.
Qed.

Lemma label_without_title_witness :
  exists v,
    resolve (Sample.serves Sample.utc true Sample.notFound) Sample.styles
      (Sample.payload newly (Some "2024-03-15") None) = Ok v /\
    startsWith "Baseline:  " (ariaLabel v) = true.
Proof.
  eexists. split; [reflexivity|].
  apply (proj2 (label_without_title
                  (Sample.serves Sample.utc true Sample.notFound) Sample.styles
                  (Sample.payload newly (Some "2024-03-15") None) _ eq_refl)).
  reflexivity.
Defined.

(** When the date label of a [newly] view is one word, the year token is
    undefined, not a string: the label has no space to split at.  The
    accessibility label then carries no year, and the title line of the
    markup renders nothing for it. *)
Theorem year_of_one_word_label (P : Platform) (styles : string -> option string)
    (feature : BaselineStatusData) (v : ResolvedView) :
  resolve P styles feature = Ok v ->
  rv_baseline v = newly ->
  rv_baselineDate v <> "" ->
  noWhitespace (rv_baselineDate v) = true ->
  rv_year v = None /\
  startsWith "Baseline:  (newly available)." (ariaLabel v) = true.
Proof.
  intros H Ht Hne Hw.
  destruct (resolve_inv _ _ _ _ H) as (date & _ & _ & Hb & Htitle & Hbadge & Hd & _ & Hy).
  assert (Hyear : rv_year v = None).
  { rewrite Hy. rewrite <- Hb, Ht, <- Hd. apply truthy_true in Hne. rewrite Hne.
    cbn [BaselineStatusType_eqb andb]. rewrite (split_word _ Hw). reflexivity. }
  split; [exact Hyear|].
  unfold ariaLabel, getAriaLabel. rewrite Hyear, Htitle, Hbadge, <- Hb, Ht. reflexivity.
Qed.

Lemma year_of_one_word_label_witness :
  exists v,
    resolve (Sample.yearOnly (Sample.network Rejected)) Sample.styles
      (Sample.payload newly (Some "2024-03-15") None) = Ok v /\
    rv_baselineDate v = "2024" /\
    rv_year v = None.
Proof.
  eexists. split; [reflexivity|]. split; [reflexivity|].
  apply (year_of_one_word_label (Sample.yearOnly (Sample.network Rejected)) Sample.styles
           (Sample.payload newly (Some "2024-03-15") None) _ eq_refl);
    [reflexivity | discriminate | reflexivity].
Defined.

(** ** Support icons and heading of the markup *)

Lemma signalsBadge_plain (styles : string -> option string)
    (args : BaselineStatusProps) (v : ResolvedView) :
  elements isSupportSpan (signalsBadge styles args v) = [] /\
  elements isStrong (signalsBadge styles args v) = [].
Proof.
  unfold signalsBadge.
  destruct (rv_upvoteUrl v) as [url|]; [|split; reflexivity].
  destruct (truthy url); [|split; reflexivity].
  destruct (rv_upvotes v); split; reflexivity.
Qed.

Lemma learnMore_plain (args : BaselineStatusProps) (tier : BaselineStatusType) :
  elements isSupportSpan (learnMore args tier) = [] /\
  elements isStrong (learnMore args tier) = [].
Proof.
  unfold learnMore. destruct (BaselineStatusType_eqb tier no_data); split; reflexivity.
Qed.

(** The markup of every view holds four support icons, one per logical
    browser in the order Chrome, Edge, Firefox, Safari, computed from the
    desktop and mobile records of the payload (Edge from its one record);
    the span of each starts with the text "$" that stands before the brace
    in the source. *)
Theorem support_icons_of_markup (P : Platform) (styles : string -> option string)
    (args : BaselineStatusProps) (v : ResolvedView) :
  resolveFeature P styles (featureId args) = Ok v ->
  let record key := option_map key (browser_implementations (rv_feature v)) in
  elements isSupportSpan (render styles args v) =
  map (fun implementations =>
         JElement "span"
           [("className",
             classAttr (supportStyles styles (supportOf (rv_baseline v) implementations)))]
           [JText "$"; JSupportIcon (iconOf (supportOf (rv_baseline v) implementations))])
    [[record chrome; record chrome_android];
     [record edge];
     [record firefox; record firefox_android];
     [record safari; record safari_ios]].
Proof.
  intros H record. apply resolveFeature_fields in H.
  destruct (resolve_fields _ _ _ _ H) as (_ & Hb & Hp & Hbadge & _ & _ & Himpl).
  injection Himpl as Hc Hca He Hf Hfa Hs Hsi.
  elements_of_render.
  rewrite (proj1 (signalsBadge_plain styles args v)).
  rewrite (proj1 (learnMore_plain args (rv_baseline v))).
  rewrite Hp, Hbadge, Hc, Hca, He, Hf, Hfa, Hs, Hsi. subst record.
  destruct (status (baseline (rv_feature v))); destruct (rv_year v); reflexivity.
Qed.

Lemma support_icons_of_markup_witness :
  exists v,
    resolveFeature
      (Sample.serves Sample.utc true
         (inl (Sample.payload limited None (Some Sample.safariDesktopMissing))))
      Sample.styles "grid" = Ok v /\
    elements isSupportSpan (render Sample.styles (Sample.args "grid") v) =
      [JElement "span" [("className", AString "supportAvailable")]
         [JText "$"; JSupportIcon available];
       JElement "span" [("className", AString "supportAvailable")]
         [JText "$"; JSupportIcon available];
       JElement "span" [("className", AString "supportAvailable")]
         [JText "$"; JSupportIcon available];
       JElement "span" [("className", AString "supportUnavailable")]
         [JText "$"; JSupportIcon unavailable]].
Proof.
  eexists. split; [reflexivity|].
  etransitivity.
  - apply (support_icons_of_markup
             (Sample.serves Sample.utc true
                (inl (Sample.payload limited None (Some Sample.safariDesktopMissing))))
             Sample.styles (Sample.args "grid")).
    reflexivity.
  - reflexivity.
Defined.

(** The word "Baseline" heads the title line, in a [strong] element, for
    the tiers [newly] and [widely] and for no other. *)
Theorem heading_of_markup (P : Platform) (styles : string -> option string)
    (args : BaselineStatusProps) (v : ResolvedView) :
  resolveFeature P styles (featureId args) = Ok v ->
  elements isStrong (render styles args v) =
  match rv_baseline v with
  | newly | widely => [JElement "strong" [] [JText "Baseline"]]
  | limited | no_data => []
  end.
Proof.
  intros H. apply resolveFeature_fields in H.
  destruct (resolve_fields _ _ _ _ H) as (_ & Hb & Hp & Hbadge & _).
  elements_of_render.
  rewrite (proj2 (signalsBadge_plain styles args v)).
  rewrite (proj2 (learnMore_plain args (rv_baseline v))).
  rewrite Hp, Hbadge, Hb.
  destruct (status (baseline (rv_feature v))); destruct (rv_year v); reflexivity.
Qed.

Lemma heading_of_markup_witness :
  exists v,
    resolveFeature (Sample.serves Sample.utc false Sample.notFound) Sample.styles "grid"
      = Ok v /\
    elements isStrong (render Sample.styles (Sample.args "grid") v) = [].
Proof.
  eexists. split; [reflexivity|].
  etransitivity.
  - apply (heading_of_markup (Sample.serves Sample.utc false Sample.notFound)
             Sample.styles (Sample.args "grid")).
    reflexivity.
  - reflexivity.
Defined.

(** ** The payload of a view *)

(** A view is built on the payload of the response only when the response
    is a success and its body has [baseline], and then on the payload as it
    is, name included; every other response that gives a view gives the one
    of the fallback, named after the feature identifier, also when its body
    is a well-formed payload. *)
Theorem feature_of_view (P : Platform) (styles : string -> option string)
    (id : string) (v : ResolvedView) :
  resolveFeature P styles id = Ok v ->
  match fetch P (API_ENDPOINT ++ id) FETCH_CACHE_TTL_SECONDS with
  | Response true (Json (inl payload)) =>
      rv_feature v = payload /\ rv_baseline v = status (baseline payload)
  | _ =>
      rv_feature v = missingFeature id /\ rv_baseline v = no_data /\
      name (rv_feature v) = (if truthy id then id else "Unknown feature")
  end.
Proof.
  unfold resolveFeature.
  destruct (fetch P (API_ENDPOINT ++ id) FETCH_CACHE_TTL_SECONDS)
    as [|ok [|[payload|err]|value baseless]]; try discriminate.
  - destruct ok; cbn [selectFeature hasBaseline andb]; intros H;
      destruct (resolve_fields _ _ _ _ H) as (Hf & Hb & _);
      rewrite Hf, Hb; repeat split; reflexivity.
  - cbn [selectFeature]. intros H.
    destruct (resolve_fields _ _ _ _ H) as (Hf & Hb & _).
    destruct ok; rewrite Hf, Hb; repeat split; reflexivity.
  - rewrite untyped_body.
    destruct (ok && negb (isObject value)); [discriminate|]. intros H.
    destruct (resolve_fields _ _ _ _ H) as (Hf & Hb & _).
    destruct ok; rewrite Hf, Hb; repeat split; reflexivity.
Qed.

Lemma feature_of_view_witness :
  exists v,
    resolveFeature
      (Sample.serves Sample.utc false (inl (Sample.payload widely None None)))
      Sample.styles "grid" = Ok v /\
    name (rv_feature v) = "grid" /\ rv_baseline v = no_data.
Proof.
  eexists. split; [reflexivity|].
  destruct (feature_of_view
              (Sample.serves Sample.utc false (inl (Sample.payload widely None None)))
              Sample.styles "grid" _ eq_refl) as (_ & Hb & Hn).
  split; [exact Hn | exact Hb].
Defined.
